(** * tlog2csv: the trajectory-log decoder of [tlog2csv.py]

    A shallow embedding of the decoding pass of the script (the function
    [decode_binary], the module-level header and snapshot reads, and the
    assignment of the axes), with the properties of the decoder stated
    and proved over it.

    Conventions.
    - The file contents [fc] are a [list byte] (Python 3 [bytes]).
    - Python integers are unbounded: they are [Z], without wrap-around.
    - The global [cursor] is threaded explicitly; it survives an
      exception, as a Python global does.
    - [struct] formats ['i'] and ['f'] are read little-endian, 4 bytes each.
      A float32 is kept as its IEEE-754 bit pattern.
    - The limits of the interpreter, [sys.maxsize] and the longest text
      it can build, are the fields of the class [Platform]; the
      properties hold for every platform. *)

From Stdlib Require Import ZArith List Lia Bool.
From Stdlib.Strings Require Import Byte.
From Stdlib Require String Ascii DecimalString DecimalZ DecimalPos.
Import ListNotations.
Open Scope Z_scope.

(** ** Python built-ins used by the script *)

Module Py.

(** Exceptions the decoding pass can raise. *)
Inductive exn : Type :=
| IOError
| ValueError
| UnicodeDecodeError
| StructError
| TypeError
| IndexError
| OverflowError
| MemoryError.

Inductive res (A : Type) : Type :=
| OK (a : A)
| Raise (e : exn).
Arguments OK {A} a.
Arguments Raise {A} e.

(** What a read of several primitives returns: [decode_binary] unwraps a
    tuple of length one into the bare number. *)
Inductive scalar_or_tuple (A : Type) : Type :=
| Scalar (x : A)
| Tuple (t : list A).
Arguments Scalar {A} x.
Arguments Tuple {A} t.

(** [range(n)] *)
Definition range (n : Z) : list Z := map Z.of_nat (seq 0 (Z.to_nat n)).

(** Index adjustment of a slice bound, for a positive step:
    a negative bound counts from the end, and the result is clamped to
    [0 .. len]. *)
Definition adjust_index (len i : Z) : Z :=
  if i <? 0 then Z.max (i + len) 0 else Z.min i len.

(** [l[a:b]] *)
Definition slice {A : Type} (l : list A) (a b : Z) : list A :=
  let len := Z.of_nat (length l) in
  let lo := adjust_index len a in
  let hi := adjust_index len b in
  firstn (Z.to_nat (hi - lo)) (skipn (Z.to_nat lo) l).

(** [l[i]] for an index already known to be in [0 .. len - 1]. *)
Definition item {A : Type} (l : list A) (i : Z) : option A :=
  if i <? 0 then None else nth_error l (Z.to_nat i).

Fixpoint gather {A : Type} (l : list A) (idxs : list Z) : list A :=
  match idxs with
  | [] => []
  | i :: rest =>
      match item l i with
      | Some x => x :: gather l rest
      | None => gather l rest
      end
  end.

(** First index of [l[start::step]]. *)
Definition slice_first (len start step : Z) : Z :=
  if 0 <? step then adjust_index len start
  else if start <? 0 then Z.max (start + len) (-1)
  else Z.min start (len - 1).

(** Number of elements of [l[start::step]], from the adjusted first index. *)
Definition slice_count (len first step : Z) : Z :=
  if 0 <? step then
    if first <? len then (len - first - 1) / step + 1 else 0
  else
    if -1 <? first then first / (- step) + 1 else 0.

(** [l[start::step]]: [None] is "ValueError: slice step cannot be zero". *)
Definition slice_step {A : Type} (l : list A) (start step : Z) : option (list A) :=
  if step =? 0 then None
  else
    let len := Z.of_nat (length l) in
    let first := slice_first len start step in
    let count := slice_count len first step in
    Some (gather l (map (fun k => first + k * step) (range count))).

(** [v[start::step]] on what a read returned: a bare number is not
    subscriptable. *)
Definition subscript_step {A : Type} (v : scalar_or_tuple A) (start step : Z)
  : res (list A) :=
  match v with
  | Scalar _ => Raise TypeError
  | Tuple t =>
      match slice_step t start step with
      | Some s => OK s
      | None => Raise ValueError
      end
  end.

(** [v[-1]] *)
Definition subscript_last (v : scalar_or_tuple Z) : res Z :=
  match v with
  | Scalar _ => Raise TypeError
  | Tuple [] => Raise IndexError
  | Tuple t => OK (last t 0)
  end.

(** [sum(v)] *)
Definition sum (v : scalar_or_tuple Z) : res Z :=
  match v with
  | Scalar _ => Raise TypeError
  | Tuple t => OK (fold_left Z.add t 0)
  end.

(** *** [bytes.decode()]: strict UTF-8 *)

Definition byte_val (b : byte) : Z := Z.of_N (Byte.to_N b).

Definition between (lo hi : Z) (b : byte) : bool :=
  (lo <=? byte_val b) && (byte_val b <=? hi).

Definition continuation : byte -> bool := between 128 191.

(** The code points of a UTF-8 byte string; [None] is UnicodeDecodeError
    (overlong forms, surrogates, values above U+10FFFF and truncated
    sequences are refused). *)
Fixpoint utf8_decode (bs : list byte) : option (list Z) :=
  match bs with
  | [] => Some []
  | b0 :: r0 =>
      let x0 := byte_val b0 in
      if x0 <? 128 then option_map (cons x0) (utf8_decode r0)
      else if between 194 223 b0 then
        match r0 with
        | b1 :: r1 =>
            if continuation b1
            then option_map (cons ((x0 - 192) * 64 + (byte_val b1 - 128)))
                            (utf8_decode r1)
            else None
        | _ => None
        end
      else if between 224 239 b0 then
        match r0 with
        | b1 :: b2 :: r2 =>
            let second :=
              if x0 =? 224 then between 160 191 b1
              else if x0 =? 237 then between 128 159 b1
              else continuation b1 in
            if second && continuation b2
            then option_map
                   (cons ((x0 - 224) * 4096 + (byte_val b1 - 128) * 64
                          + (byte_val b2 - 128)))
                   (utf8_decode r2)
            else None
        | _ => None
        end
      else if between 240 244 b0 then
        match r0 with
        | b1 :: b2 :: b3 :: r3 =>
            let second :=
              if x0 =? 240 then between 144 191 b1
              else if x0 =? 244 then between 128 143 b1
              else continuation b1 in
            if second && continuation b2 && continuation b3
            then option_map
                   (cons ((x0 - 240) * 262144 + (byte_val b1 - 128) * 4096
                          + (byte_val b2 - 128) * 64 + (byte_val b3 - 128)))
                   (utf8_decode r3)
            else None
        | _ => None
        end
      else None
  end.

(** *** [str.strip('\x00')] *)

Fixpoint lstrip_nul (s : list Z) : list Z :=
  match s with
  | [] => []
  | ch :: rest => if ch =? 0 then lstrip_nul rest else s
  end.

Definition strip_nul (s : list Z) : list Z :=
  rev (lstrip_nul (rev (lstrip_nul s))).

(** *** [struct.unpack] *)

(** A float32, as its bit pattern. *)
Record float32 : Type := F32 { f32_bits : Z }.

Fixpoint words32 (bs : list byte) : list Z :=
  match bs with
  | b0 :: b1 :: b2 :: b3 :: rest =>
      (byte_val b0 + 256 * byte_val b1 + 65536 * byte_val b2
       + 16777216 * byte_val b3) :: words32 rest
  | _ => []
  end.

Definition signed32 (u : Z) : Z :=
  if u <? 2147483648 then u else u - 4294967296.

(** [struct.calcsize(c * n)] for a 4-byte format character [c]:
    the format is empty when [n <= 0]. *)
Definition calcsize4 (n : Z) : Z := 4 * Z.max 0 n.

(** [struct.unpack('i' * n, buf)]: [None] is [struct.error], raised when
    the buffer is not exactly of the format's size. *)
Definition unpack_i (n : Z) (buf : list byte) : option (list Z) :=
  if Z.of_nat (length buf) =? calcsize4 n
  then Some (map signed32 (words32 buf))
  else None.

(** [struct.unpack('f' * n, buf)] *)
Definition unpack_f (n : Z) (buf : list byte) : option (list float32) :=
  if Z.of_nat (length buf) =? calcsize4 n
  then Some (map F32 (words32 buf))
  else None.

(** [if len(output) == 1: output = output[0]] *)
Definition unwrap_single {A : Type} (t : list A) : scalar_or_tuple A :=
  match t with
  | [x] => Scalar x
  | _ => Tuple t
  end.

(** *** The limits of the interpreter *)

(** [sys.maxsize], and the length of the longest format text the
    interpreter can build: beyond it the allocation fails. A text of one
    character can be built. *)
Class Platform : Type := {
  maxsize : Z;
  memory : Z;
  memory_fits : 1 <= memory <= maxsize
}.

(** [c * n] for a format character [c], as the exception it raises if
    any: a count that does not fit an index is an OverflowError, and a
    text too long to be built a MemoryError. A count of zero or less
    gives the empty text. *)
Definition format_error {platform : Platform} (n : Z) : option exn :=
  if maxsize <? n then Some OverflowError
  else if memory <? n then Some MemoryError
  else None.

End Py.

Import Py.

(** ** The cursor: a global position, kept across exceptions *)

Definition M (A : Type) : Type := Z -> res A * Z.

Definition ret {A : Type} (a : A) : M A := fun cursor => (OK a, cursor).

Definition bind {A B : Type} (m : M A) (f : A -> M B) : M B :=
  fun cursor =>
    match m cursor with
    | (OK a, cursor') => f a cursor'
    | (Raise e, cursor') => (Raise e, cursor')
    end.

Definition lift {A : Type} (r : res A) : M A := fun cursor => (r, cursor).

Notation "x <- m ;; k" := (bind m (fun x => k))
  (at level 61, m at next level, right associativity).

(** The computation [m] never raises [e]. *)
Definition never_raises {A : Type} (e : exn) (m : M A) : Prop :=
  forall c c', m c <> (Raise e, c').

(** ** Texts of the script *)

(** A text literal of the script, as code points. *)
Definition text (s : String.string) : list Z :=
  map (fun a => Z.of_N (Ascii.N_of_ascii a)) (String.list_ascii_of_string s).

(** [str(i)] for an integer. *)
Definition str_int (z : Z) : list Z :=
  text (DecimalString.NilZero.string_of_int (Z.to_int z)).

Module Lit.
Import String.
Definition bin : list Z := text "bin".
Definition csv : list Z := text "csv".
Definition Expected : list Z := text " Expected".
Definition Expected_in_units_of : list Z := text " Expected in units of".
Definition Actual : list Z := text " Actual".
Definition Actual_in_units_of_ : list Z := text " Actual in units of ".
Definition Tlog_File : list Z := text "Tlog File:".
Definition Signature : list Z := text "Signature:".
Definition Version : list Z := text "Version:".
Definition Header_Size : list Z := text "Header Size:".
Definition Sampling_Inteval : list Z := text "Sampling Inteval:".
Definition Number_of_Axes : list Z := text "Number of Axes:".
Definition Axis_Enumeration : list Z := text "Axis Enumeration:".
Definition Samples_per_Axis : list Z := text "Samples per Axis:".
Definition Axis_Scale : list Z := text "Axis Scale:".
Definition Number_of_Subbeams : list Z := text "Number of Subbeams:".
Definition Is_Truncated : list Z := text "Is Truncated?".
Definition Number_of_Snapshots : list Z := text "Number of Snapshots:".
Definition MLC_Model : list Z := text "MLC Model:".
Definition ms : list Z := text "ms".
Definition degrees : list Z := text "degrees".
Definition cm : list Z := text "cm".
Definition MU : list Z := text "MU".
Definition Gantry : list Z := text "Gantry".
Definition Collimator : list Z := text "Collimator".
Definition Couch_Lat : list Z := text "Couch Lat".
Definition Couch_Lng : list Z := text "Couch Lng".
Definition Couch_Rtn : list Z := text "Couch Rtn".
Definition Beam_Hold : list Z := text "Beam Hold".
Definition Control_Point : list Z := text "Control Point".
Definition Carriage_A : list Z := text "Carriage A".
Definition Carriage_B : list Z := text "Carriage B".
Definition Leaf_ : list Z := text "Leaf ".
End Lit.

(** ** Sample inputs *)

Module Sample.

(** [float] on plain ASCII decimal literals ([digits], [digits.digits],
    with an optional sign): the number as (mantissa, number of fraction
    digits). Every other text, the empty one included, is refused. It
    stands for the built-in on the version texts of the sample buffers. *)
Definition decimal : Type := (Z * nat)%type.

Definition digit (ch : Z) : option Z :=
  if (48 <=? ch) && (ch <=? 57) then Some (ch - 48) else None.

Fixpoint digits (acc : Z) (s : list Z) : option Z :=
  match s with
  | [] => Some acc
  | ch :: rest =>
      match digit ch with
      | Some d => digits (acc * 10 + d) rest
      | None => None
      end
  end.

Fixpoint split_dot (s : list Z) : list Z * option (list Z) :=
  match s with
  | [] => ([], None)
  | ch :: rest =>
      if ch =? 46 then ([], Some rest)
      else let (a, b) := split_dot rest in (ch :: a, b)
  end.

Definition unsigned_decimal (s : list Z) : option decimal :=
  match split_dot s with
  | ([], _) => None
  | (ip, None) => option_map (fun m => (m, 0%nat)) (digits 0 ip)
  | (_, Some []) => None
  | (ip, Some fp) =>
      option_map (fun m => (m, length fp)) (digits 0 (ip ++ fp))
  end.

Definition float_of_str (s : list Z) : option decimal :=
  match s with
  | 45 :: rest =>
      option_map (fun d => (- fst d, snd d)) (unsigned_decimal rest)
  | 43 :: rest => unsigned_decimal rest
  | _ => unsigned_decimal s
  end.

Definition byte_of (z : Z) : byte :=
  match Byte.of_N (Z.to_N (z mod 256)) with
  | Some b => b
  | None => x00
  end.

(** Four bytes, little-endian, of a 32-bit pattern. *)
Definition le32 (z : Z) : list byte :=
  [ byte_of z; byte_of (z / 256); byte_of (z / 65536);
    byte_of (z / 16777216) ].

Definition zeros (n : nat) : list byte := repeat x00 n.

(** ASCII text, padded with NUL bytes to 16 bytes. *)
Definition text16 (s : list Z) : list byte :=
  map byte_of s ++ zeros (16 - length s).

Definition pad_to (n : nat) (bs : list byte) : list byte :=
  bs ++ zeros (n - length bs).

(** A header, padded to [size] bytes. *)
Definition header_bytes (size : nat) (sig ver : list Z)
    (hsize interval : Z) (enum samples : list Z)
    (scale subbeams truncated snapshots model : Z) : list byte :=
  pad_to size
    (text16 sig ++ text16 ver ++ le32 hsize ++ le32 interval
     ++ le32 (Z.of_nat (length enum))
     ++ flat_map le32 enum ++ flat_map le32 samples
     ++ le32 scale ++ le32 subbeams ++ le32 truncated ++ le32 snapshots
     ++ le32 model).

(** [n] float32 values with the bit patterns [0, 1, ..., n - 1]. *)
Definition floats (n : Z) : list byte := flat_map le32 (range n).

Definition VOSTL : list Z := [86; 79; 83; 84; 76].
Definition HELLO : list Z := [72; 69; 76; 76; 79].
Definition v2_1 : list Z := [50; 46; 49].

(** A log in a standard layout: 13 single-sample axes and a carriage
    entry of 4 (2 leaves), so rows of 34 values; 5 sub-beams, 2 snapshots. *)
Definition standard : list byte :=
  header_bytes 1024 VOSTL v2_1 1024 20 [0; 1] [13; 4] 1 5 0 2 2
  ++ zeros 400 ++ floats 68.

(** The synthetic buffer of the specification's round-trip property:
    [samples_per_axis = [2, 4]], rows of 12 values, 3 snapshots. *)
Definition spec_example : list byte :=
  header_bytes 1024 VOSTL v2_1 1024 20 [0; 1] [2; 4] 1 0 0 3 2
  ++ floats 36.

(** Another signature text and a declared header size of 2048. *)
Definition hello_2048 : list byte :=
  header_bytes 1024 HELLO v2_1 2048 20 [0; 1] [13; 4] 1 0 0 0 2.

(** A last [samples_per_axis] entry of 1: [num_mlc_leaves = -1]. *)
Definition one_carriage_sample : list byte :=
  header_bytes 1024 VOSTL v2_1 1024 20 [0; 1] [14; 1] 1 0 0 0 2.

(** 121 axes: the reads of the header end at byte 1032. *)
Definition axes_121 : list byte :=
  header_bytes 1032 VOSTL v2_1 1024 20 (repeat 0 121) (repeat 1 121)
    1 0 0 0 2.

(** Five bytes, the signature text alone. *)
Definition five_bytes : list byte := map byte_of VOSTL.

(** A rendering of a decimal of the samples, mantissa and exponent: it
    stands for [str] of the version number. *)
Definition str_of_decimal (d : decimal) : list Z :=
  str_int (fst d) ++ [101; 45] ++ str_int (Z.of_nat (snd d)).

(** Sample counts that sum to zero. *)
Definition zero_sum : list byte :=
  header_bytes 1024 VOSTL v2_1 1024 20 [0; 1] [1; -1] 1 0 0 3 2.


(** A version text that is no number. *)
Definition bad_version : list byte :=
  header_bytes 1024 VOSTL [116; 119; 111] 1024 20 [0; 1] [13; 4] 1 0 0 0 2.


(** A header of 80 bytes, without the reserved section; no snapshots. *)
Definition header_80 : list byte :=
  header_bytes 80 VOSTL v2_1 1024 20 [0; 1] [13; 4] 1 0 0 0 2.

(** The standard layout, with a declared header size of 2048. *)
Definition standard_2048 : list byte :=
  header_bytes 1024 VOSTL v2_1 2048 20 [0; 1] [13; 4] 1 5 0 2 2
  ++ zeros 400 ++ floats 68.

(** A sub-beam count of -3, the snapshot data right after the header. *)
Definition negative_subbeams : list byte :=
  header_bytes 1024 VOSTL v2_1 1024 20 [0; 1] [13; 4] 1 (-3) 0 2 2
  ++ floats 68.


(** Names of log files. *)
Definition log_dat : list Z := [108; 111; 103; 46; 100; 97; 116].
Definition beam1 : list Z := [98; 101; 97; 109; 49].

(** A 64-bit interpreter that can build texts of 2^32 characters. *)
#[global] Instance cpython64 : Platform := {|
  maxsize := 9223372036854775807;
  memory := 4294967296;
  memory_fits := ltac:(split; discriminate)
|}.

End Sample.

(** ** [decode_binary] *)

Section Decoder.

Context {platform : Platform}.

(** The [dtype] argument: [str], [int], [float], or any other object. *)
Inductive dtype : Type :=
| Dstr
| Dint
| Dfloat
| Dother (name : list Z).

(** The Python type of the result, by requested data type. *)
Definition output (dt : dtype) : Type :=
  match dt with
  | Dstr => list Z
  | Dint => scalar_or_tuple Z
  | Dfloat => scalar_or_tuple float32
  | Dother _ => Empty_set
  end.

(** [decode_binary(filecontents, dtype, num_values, cursor_shift)], run
    from the position [cursor]: the result, or the exception raised, and
    the position afterwards. An exception leaves the cursor as it was:
    each branch moves it after its decoding step only. In the branches
    of the numbers the format ['i' * num_values] is built first, as the
    first argument of [struct.unpack]: a count it cannot be built for
    raises OverflowError or MemoryError before the buffer is sliced. *)
Definition decode_binary (filecontents : list byte) (dt : dtype)
    (num_values cursor_shift : Z) : M (output dt) :=
  fun cursor =>
    let fc := filecontents in
    match dt return res (output dt) * Z with
    | Dstr =>
        match utf8_decode (slice fc cursor (cursor + num_values)) with
        | Some text =>
            (OK (strip_nul text), cursor + num_values + cursor_shift)
        | None => (Raise UnicodeDecodeError, cursor)
        end
    | Dint =>
        let ssize := 4 * num_values in
        match format_error num_values with
        | Some e => (Raise e, cursor)
        | None =>
            match unpack_i num_values (slice fc cursor (cursor + ssize)) with
            | Some t => (OK (unwrap_single t), cursor + ssize + cursor_shift)
            | None => (Raise StructError, cursor)
            end
        end
    | Dfloat =>
        let ssize := 4 * num_values in
        match format_error num_values with
        | Some e => (Raise e, cursor)
        | None =>
            match unpack_f num_values (slice fc cursor (cursor + ssize)) with
            | Some t => (OK (unwrap_single t), cursor + ssize + cursor_shift)
            | None => (Raise StructError, cursor)
            end
        end
    | Dother _ => (Raise TypeError, cursor)
    end.

(** Bytes a read of [n] values asks for, by data type. *)
Definition width (dt : dtype) : Z :=
  match dt with
  | Dstr => 1
  | Dint | Dfloat => 4
  | Dother _ => 0
  end.

(** ** The decoding pass of the script *)

(** [Axis(expected=..., actual=...)] *)
Record Axis : Type := mkAxis {
  expected : list float32;
  actual : list float32
}.

(** A [dict] with integer keys, in insertion order. *)
Definition dict (V : Type) : Type := list (Z * V).

Fixpoint dict_get {V : Type} (d : dict V) (k : Z) : option V :=
  match d with
  | [] => None
  | (k', v) :: rest => if k' =? k then Some v else dict_get rest k
  end.

(** [d[k] = v] *)
Fixpoint dict_set {V : Type} (d : dict V) (k : Z) (v : V) : dict V :=
  match d with
  | [] => [(k, v)]
  | (k', v') :: rest =>
      if k' =? k then (k, v) :: rest else (k', v') :: dict_set rest k v
  end.

(** A number used as a repeat count: a read of one int32 returns the bare
    number ([read_one_scalar] below), and a tuple in its place would be
    a TypeError at ['i' * num_values]. *)
Definition as_int (v : scalar_or_tuple Z) : res Z :=
  match v with
  | Scalar i => OK i
  | Tuple _ => Raise TypeError
  end.

(** [decode_binary(fcontent, int, cursor_shift=...)] *)
Definition read_int (fc : list byte) (cursor_shift : Z) : M Z :=
  v <- decode_binary fc Dint 1 cursor_shift ;;
  lift (as_int v).

(** The sub-beam loop:
    [if num_subbeams: for beam in range(num_subbeams): cursor += 80] *)
Definition skip_subbeams (num_subbeams : Z) : M unit :=
  fun cursor =>
    (OK tt,
     if num_subbeams =? 0 then cursor
     else fold_left (fun c _ => c + 80) (range num_subbeams) cursor).

(** [Axis(expected=snapshot_data[col::step_size],
          actual=snapshot_data[col + 1::step_size])] *)
Definition axis_at (snapshot_data : scalar_or_tuple float32)
    (step_size col : Z) : M Axis :=
  e <- lift (subscript_step snapshot_data col step_size) ;;
  a <- lift (subscript_step snapshot_data (col + 1) step_size) ;;
  ret (mkAxis e a).

(** The leaf loop: [for leaf in range(num_mlc_leaves): mlc[leaf] = Axis(...)] *)
Fixpoint assign_mlc (snapshot_data : scalar_or_tuple float32)
    (step_size : Z) (leaves : list Z) (mlc : dict Axis) : M (dict Axis) :=
  match leaves with
  | [] => ret mlc
  | leaf :: rest =>
      ax <- axis_at snapshot_data step_size (30 + 2 * leaf) ;;
      assign_mlc snapshot_data step_size rest (dict_set mlc leaf ax)
  end.

(** The axis the script builds at column [col]. *)
Definition axis_of (data : list float32) (step_size col : Z) : option Axis :=
  match slice_step data col step_size, slice_step data (col + 1) step_size with
  | Some e, Some a => Some (mkAxis e a)
  | _, _ => None
  end.

(** The sequence [s] is column [col] of a matrix of [rows] rows of
    width [stride] laid out in [data]: one value per row, taken at that
    column of the row. *)
Definition is_column (data : list float32) (stride rows col : Z)
    (s : list float32) : Prop :=
  Z.of_nat (length s) = rows /\
  forall r, 0 <= r < rows -> item s r = item data (r * stride + col).

Section Script.

(** Python's built-in [float] on text is not code of the script: it is a
    parameter, [None] standing for its ValueError. *)
Variable pyfloat : Type.
Variable float_of_str : list Z -> option pyfloat.

Definition py_float (text : list Z) : M pyfloat :=
  lift (match float_of_str text with
        | Some x => OK x
        | None => Raise ValueError
        end).

Record Header : Type := mkHeader {
  signature : list Z;
  version : pyfloat;
  header_size : Z;
  sampling_interval : Z;
  num_axes : Z;
  axis_enum : scalar_or_tuple Z;
  samples_per_axis : scalar_or_tuple Z;
  num_mlc_leaves : Z;
  clinac_scale : Z;
  num_subbeams : Z;
  is_truncated : Z;
  num_snapshots : Z;
  mlc_model : Z
}.

Record TrajectoryLog : Type := mkLog {
  header : Header;
  step_size : Z;
  snapshot_data : scalar_or_tuple float32;
  collimator : Axis;
  gantry : Axis;
  jaw_y1 : Axis;
  jaw_y2 : Axis;
  jaw_x1 : Axis;
  jaw_x2 : Axis;
  couch_vrt : Axis;
  couch_lng : Axis;
  couch_lat : Axis;
  couch_rtn : Axis;
  mu : Axis;
  beam_hold : Axis;
  control_point : Axis;
  carraigeA : Axis;
  carriageB : Axis;
  mlc : dict Axis
}.

(** [try: signature = decode_binary(fcontent, str, 16)]
    [except: raise IOError(...)] *)
Definition read_signature (fc : list byte) : M (list Z) :=
  fun cursor =>
    match decode_binary fc Dstr 16 0 cursor with
    | (OK s, cursor') => (OK s, cursor')
    | (Raise _, cursor') => (Raise IOError, cursor')
    end.

(** The header reads, from the signature to [mlc_model] and the move of
    the cursor to the end of the reserved section. *)
Definition read_header (fc : list byte) : M Header :=
  signature <- read_signature fc ;;
  text <- decode_binary fc Dstr 16 0 ;;
  version <- py_float text ;;
  header_size <- read_int fc 0 ;;
  sampling_interval <- read_int fc 0 ;;
  num_axes <- read_int fc 0 ;;
  axis_enum <- decode_binary fc Dint num_axes 0 ;;
  samples_per_axis <- decode_binary fc Dint num_axes 0 ;;
  last_samples <- lift (subscript_last samples_per_axis) ;;
  let num_mlc_leaves := last_samples - 2 in
  clinac_scale <- read_int fc 0 ;;
  num_subbeams <- read_int fc 0 ;;
  is_truncated <- read_int fc 0 ;;
  num_snapshots <- read_int fc 0 ;;
  mlc_model <- read_int fc (1024 - (64 + num_axes * 8)) ;;
  ret (mkHeader signature version header_size sampling_interval num_axes
         axis_enum samples_per_axis num_mlc_leaves clinac_scale
         num_subbeams is_truncated num_snapshots mlc_model).

(** [step_size = sum(samples_per_axis) * 2] and the read of all the
    snapshot data at once. *)
Definition read_snapshots (fc : list byte) (h : Header)
  : M (Z * scalar_or_tuple float32) :=
  total <- lift (sum (samples_per_axis h)) ;;
  let step_size := total * 2 in
  snapshot_data <- decode_binary fc Dfloat (step_size * num_snapshots h) 0 ;;
  ret (step_size, snapshot_data).

(** The assignment of the axes, in the order of the script. *)
Definition assign_axes (h : Header) (step_size : Z)
    (snapshot_data : scalar_or_tuple float32) : M TrajectoryLog :=
  let axis := axis_at snapshot_data step_size in
  collimator <- axis 0 ;;
  gantry <- axis 2 ;;
  jaw_y1 <- axis 4 ;;
  jaw_y2 <- axis 6 ;;
  jaw_x1 <- axis 8 ;;
  jaw_x2 <- axis 10 ;;
  couch_vrt <- axis 12 ;;
  couch_lng <- axis 14 ;;
  couch_lat <- axis 16 ;;
  couch_rtn <- axis 18 ;;
  mu <- axis 20 ;;
  beam_hold <- axis 22 ;;
  control_point <- axis 24 ;;
  carraigeA <- axis 26 ;;
  carriageB <- axis 28 ;;
  mlc <- assign_mlc snapshot_data step_size (range (num_mlc_leaves h)) [] ;;
  ret (mkLog h step_size snapshot_data collimator gantry jaw_y1 jaw_y2
         jaw_x1 jaw_x2 couch_vrt couch_lng couch_lat couch_rtn mu beam_hold
         control_point carraigeA carriageB mlc).

(** The whole pass, from the cursor where it stands. *)
Definition decode (fc : list byte) : M TrajectoryLog :=
  h <- read_header fc ;;
  _ <- skip_subbeams (num_subbeams h) ;;
  sd <- read_snapshots fc h ;;
  assign_axes h (fst sd) (snd sd).

(** [cursor = 0], then the pass: a run of the script on the contents of
    the chosen file, whatever the global held before. *)
Definition tlog2csv (fc : list byte) : M TrajectoryLog :=
  fun _ => decode fc 0.

(** The fixed axes of a log, each with the column of its expected values. *)
Definition fixed_axes (log : TrajectoryLog) : list (Z * Axis) :=
  [ (0, collimator log); (2, gantry log);
    (4, jaw_y1 log); (6, jaw_y2 log); (8, jaw_x1 log); (10, jaw_x2 log);
    (12, couch_vrt log); (14, couch_lng log); (16, couch_lat log);
    (18, couch_rtn log);
    (20, mu log); (22, beam_hold log); (24, control_point log);
    (26, carraigeA log); (28, carriageB log) ].

(** The partition of the snapshot data as the specification words it:
    every fixed axis and every leaf (1-indexed) is its pair of columns,
    sampled across all the rows. *)
Definition partitioned (log : TrajectoryLog) : Prop :=
  let stride := step_size log in
  let rows := num_snapshots (header log) in
  exists data,
    snapshot_data log = Tuple data /\
    Z.of_nat (length data) = stride * rows /\
    (forall col ax, In (col, ax) (fixed_axes log) ->
       is_column data stride rows col (expected ax) /\
       is_column data stride rows (col + 1) (actual ax)) /\
    (forall i, 1 <= i <= num_mlc_leaves (header log) ->
       exists ax, dict_get (mlc log) (i - 1) = Some ax /\
         is_column data stride rows (30 + 2 * (i - 1)) (expected ax) /\
         is_column data stride rows (31 + 2 * (i - 1)) (actual ax)).

End Script.

#[global] Arguments mkHeader {pyfloat}.
#[global] Arguments signature {pyfloat} h.
#[global] Arguments version {pyfloat} h.
#[global] Arguments header_size {pyfloat} h.
#[global] Arguments sampling_interval {pyfloat} h.
#[global] Arguments num_axes {pyfloat} h.
#[global] Arguments axis_enum {pyfloat} h.
#[global] Arguments samples_per_axis {pyfloat} h.
#[global] Arguments num_mlc_leaves {pyfloat} h.
#[global] Arguments clinac_scale {pyfloat} h.
#[global] Arguments num_subbeams {pyfloat} h.
#[global] Arguments is_truncated {pyfloat} h.
#[global] Arguments num_snapshots {pyfloat} h.
#[global] Arguments mlc_model {pyfloat} h.
#[global] Arguments mkLog {pyfloat}.
#[global] Arguments header {pyfloat} log : rename.
#[global] Arguments step_size {pyfloat} log : rename.
#[global] Arguments snapshot_data {pyfloat} log : rename.
#[global] Arguments collimator {pyfloat} log : rename.
#[global] Arguments gantry {pyfloat} log : rename.
#[global] Arguments jaw_y1 {pyfloat} log : rename.
#[global] Arguments jaw_y2 {pyfloat} log : rename.
#[global] Arguments jaw_x1 {pyfloat} log : rename.
#[global] Arguments jaw_x2 {pyfloat} log : rename.
#[global] Arguments couch_vrt {pyfloat} log : rename.
#[global] Arguments couch_lng {pyfloat} log : rename.
#[global] Arguments couch_lat {pyfloat} log : rename.
#[global] Arguments couch_rtn {pyfloat} log : rename.
#[global] Arguments mu {pyfloat} log : rename.
#[global] Arguments beam_hold {pyfloat} log : rename.
#[global] Arguments control_point {pyfloat} log : rename.
#[global] Arguments carraigeA {pyfloat} log : rename.
#[global] Arguments carriageB {pyfloat} log : rename.
#[global] Arguments mlc {pyfloat} log : rename.
#[global] Arguments py_float {pyfloat} float_of_str text.
#[global] Arguments read_header {pyfloat} float_of_str fc.
#[global] Arguments read_snapshots {pyfloat} fc h.
#[global] Arguments assign_axes {pyfloat} h step_size snapshot_data.
#[global] Arguments decode {pyfloat} float_of_str fc.
#[global] Arguments tlog2csv {pyfloat} float_of_str fc.
#[global] Arguments fixed_axes {pyfloat} log.
#[global] Arguments partitioned {pyfloat} log.

(** ** The output: file name and CSV rows *)

(** [', '.join(parts)] *)
Fixpoint join_comma (parts : list (list Z)) : list Z :=
  match parts with
  | [] => []
  | [p] => p
  | p :: rest => p ++ [44; 32] ++ join_comma rest
  end.

(** [str(v)] for what an int32 read returned: a number, or a tuple, the
    tuple of one element with its trailing comma. *)
Definition str_ints (v : scalar_or_tuple Z) : list Z :=
  match v with
  | Scalar i => str_int i
  | Tuple [x] => [40] ++ str_int x ++ [44; 41]
  | Tuple t => [40] ++ join_comma (map str_int t) ++ [41]
  end.

(** [s.startswith(p)] *)
Fixpoint starts_with (p s : list Z) : bool :=
  match p, s with
  | [], _ => true
  | _ :: _, [] => false
  | a :: p', b :: s' => (a =? b) && starts_with p' s'
  end.

(** [p in s] *)
Fixpoint contains (p s : list Z) : bool :=
  starts_with p s ||
  match s with
  | [] => false
  | _ :: rest => contains p rest
  end.

(** The scan of [str.replace(old, new)] for a non-empty [old], with
    [skip] characters of a replaced occurrence still to pass over. *)
Fixpoint replace_from (old new : list Z) (skip : nat) (s : list Z) : list Z :=
  match s with
  | [] => []
  | ch :: rest =>
      match skip with
      | S k => replace_from old new k rest
      | O =>
          if starts_with old s
          then new ++ replace_from old new (length old - 1) rest
          else ch :: replace_from old new 0 rest
      end
  end.

(** [s.replace(old, new)], every occurrence from left to right. *)
Definition replace (old new s : list Z) : list Z := replace_from old new 0 s.

(** A cell handed to [csv.writer.writerow]. *)
Inductive cell : Type :=
| CText (s : list Z)
| CNone
| CFloat (x : float32).

Definition row : Type := list cell.

(** The rows written so far, the first one first. *)
Definition writer : Type := list row.

(** [writer.writerow(r)] *)
Definition writerow (w : writer) (r : row) : writer := w ++ [r].

(** The default [unit=None] and a given unit text. *)
Definition unit_cell (unit : option (list Z)) : cell :=
  match unit with
  | Some u => CText u
  | None => CNone
  end.


(** [csv_filename = tlog_file.replace('bin', 'csv')] *)
Definition csv_filename (tlog_file : list Z) : list Z :=
  replace Lit.bin Lit.csv tlog_file.

(** [write_array(writer, description, value, unit)] *)
Definition write_array (w : writer) (description : list Z) (value : Axis)
    (unit : option (list Z)) : writer :=
  let w1 :=
    match unit with
    | None => writerow w [CText (description ++ Lit.Expected)]
    | Some u =>
        writerow w [CText (description ++ Lit.Expected_in_units_of); CText u]
    end in
  let w2 := writerow w1 (map CFloat (expected value)) in
  let w3 :=
    match unit with
    | None => writerow w2 [CText (description ++ Lit.Actual)]
    | Some u =>
        writerow w2 [CText (description ++ Lit.Actual_in_units_of_); CText u]
    end in
  writerow w3 (map CFloat (actual value)).

(** [for leaf in mlc: write_array(writer, 'Leaf ' + str(leaf+1),
    mlc[leaf], 'cm')]: the keys in insertion order, each looked up. A key
    of the dict is always found; the loop body is skipped otherwise. *)
Definition write_leaves (w : writer) (mlc : dict Axis) : writer :=
  fold_left
    (fun w leaf =>
       match dict_get mlc leaf with
       | Some ax =>
           write_array w (Lit.Leaf_ ++ str_int (leaf + 1)) ax (Some Lit.cm)
       | None => w
       end)
    (map fst mlc) w.

Section Writer.

(** [str] of the version number is the built-in's: a parameter. *)
Variable pyfloat : Type.
Variable str_of_float : pyfloat -> list Z.

(** The values written as single rows: a text, the version number, or
    what an int32 read returned. *)
Inductive pyobj : Type :=
| PText (s : list Z)
| PNumber (x : pyfloat)
| PInts (v : scalar_or_tuple Z).

(** [str(value)] *)
Definition str (value : pyobj) : list Z :=
  match value with
  | PText s => s
  | PNumber x => str_of_float x
  | PInts v => str_ints v
  end.

(** [write_single_value(writer, description, value, unit)] *)
Definition write_single_value (w : writer) (description : list Z)
    (value : pyobj) (unit : option (list Z)) : writer :=
  writerow w [CText description; CText (str value); unit_cell unit].

(** The rows of the header fields, in the order of the script. *)
Definition write_header (w : writer) (tlog_file : list Z)
    (h : Header pyfloat) : writer :=
  let int i := PInts (Scalar i) in
  let w := write_single_value w Lit.Tlog_File (PText tlog_file) None in
  let w := write_single_value w Lit.Signature (PText (signature h)) None in
  let w := write_single_value w Lit.Version (PNumber (version h)) None in
  let w := write_single_value w Lit.Header_Size (int (header_size h)) None in
  let w := write_single_value w Lit.Sampling_Inteval
             (int (sampling_interval h)) (Some Lit.ms) in
  let w := write_single_value w Lit.Number_of_Axes (int (num_axes h)) None in
  let w := write_single_value w Lit.Axis_Enumeration
             (PInts (axis_enum h)) None in
  let w := write_single_value w Lit.Samples_per_Axis
             (PInts (samples_per_axis h)) None in
  let w := write_single_value w Lit.Axis_Scale (int (clinac_scale h)) None in
  let w := write_single_value w Lit.Number_of_Subbeams
             (int (num_subbeams h)) None in
  let w := write_single_value w Lit.Is_Truncated (int (is_truncated h)) None in
  let w := write_single_value w Lit.Number_of_Snapshots
             (int (num_snapshots h)) None in
  write_single_value w Lit.MLC_Model (int (mlc_model h)) None.

(** The rows of the CSV file, from the empty file. *)
Definition write_csv (tlog_file : list Z) (log : TrajectoryLog pyfloat)
  : writer :=
  let w := write_header [] tlog_file (header log) in
  let w := write_array w Lit.Gantry (gantry log) (Some Lit.degrees) in
  let w := write_array w Lit.Collimator (collimator log) (Some Lit.degrees) in
  let w := write_array w Lit.Couch_Lat (couch_lat log) (Some Lit.cm) in
  let w := write_array w Lit.Couch_Lng (couch_lng log) (Some Lit.cm) in
  let w := write_array w Lit.Couch_Rtn (couch_rtn log) (Some Lit.degrees) in
  let w := write_array w Lit.MU (mu log) (Some Lit.MU) in
  let w := write_array w Lit.Beam_Hold (beam_hold log) None in
  let w := write_array w Lit.Control_Point (control_point log) None in
  let w := write_array w Lit.Carriage_A (carraigeA log) (Some Lit.cm) in
  let w := write_array w Lit.Carriage_B (carriageB log) (Some Lit.cm) in
  write_leaves w (mlc log).

End Writer.

#[global] Arguments PText {pyfloat} s.
#[global] Arguments PNumber {pyfloat} x.
#[global] Arguments PInts {pyfloat} v.
#[global] Arguments str {pyfloat} str_of_float value.
#[global] Arguments write_single_value {pyfloat} str_of_float w description value unit.
#[global] Arguments write_header {pyfloat} str_of_float w tlog_file h.
#[global] Arguments write_csv {pyfloat} str_of_float tlog_file log.

(** The reads of the header fields of [h], each at its byte offset from
    the position [c] where the header starts. *)
Definition header_reads {pyfloat : Type}
    (float_of_str : list Z -> option pyfloat) (fc : list byte) (c : Z)
    (h : Header pyfloat) : Prop :=
  let n := num_axes h in
  decode_binary fc Dstr 16 0 c = (OK (signature h), c + 16) /\
  (exists text,
      decode_binary fc Dstr 16 0 (c + 16) = (OK text, c + 32) /\
      float_of_str text = Some (version h)) /\
  read_int fc 0 (c + 32) = (OK (header_size h), c + 36) /\
  read_int fc 0 (c + 36) = (OK (sampling_interval h), c + 40) /\
  read_int fc 0 (c + 40) = (OK n, c + 44) /\
  decode_binary fc Dint n 0 (c + 44) = (OK (axis_enum h), c + 44 + 4 * n) /\
  decode_binary fc Dint n 0 (c + 44 + 4 * n)
    = (OK (samples_per_axis h), c + 44 + 8 * n) /\
  subscript_last (samples_per_axis h) = OK (num_mlc_leaves h + 2) /\
  read_int fc 0 (c + 44 + 8 * n) = (OK (clinac_scale h), c + 48 + 8 * n) /\
  read_int fc 0 (c + 48 + 8 * n) = (OK (num_subbeams h), c + 52 + 8 * n) /\
  read_int fc 0 (c + 52 + 8 * n) = (OK (is_truncated h), c + 56 + 8 * n) /\
  read_int fc 0 (c + 56 + 8 * n) = (OK (num_snapshots h), c + 60 + 8 * n) /\
  read_int fc (1024 - (64 + n * 8)) (c + 60 + 8 * n)
    = (OK (mlc_model h), c + 1024).

(** The values of a number or a tuple of numbers. *)
Definition items {A : Type} (v : scalar_or_tuple A) : list A :=
  match v with
  | Scalar x => [x]
  | Tuple t => t
  end.

(** A signed 32-bit value. *)
Definition int32 (z : Z) : Prop := -2147483648 <= z < 2147483648.


(** ** Reasoning about the cursor monad *)

Lemma bind_OK {A B : Type} (m : M A) (f : A -> M B) c b c' :
  bind m f c = (OK b, c') ->
  exists a c1, m c = (OK a, c1) /\ f a c1 = (OK b, c').
Proof.
  unfold bind. destruct (m c) as [[a | e] c1]; intros H.
  - now exists a, c1.
  - discriminate.
Qed.

Lemma lift_OK {A : Type} (r : res A) c a c' :
  lift r c = (OK a, c') -> r = OK a /\ c' = c.
Proof. unfold lift. intros H. injection H as -> ->. auto. Qed.

Lemma ret_OK {A : Type} (x : A) c a c' :
  ret x c = (OK a, c') -> a = x /\ c' = c.
Proof. unfold ret. intros H. injection H as -> ->. auto. Qed.

(** Replaces a cursor by its offset from the start of the pass. *)
Ltac pin x t E :=
  let E' := fresh "E" in
  assert (E' : x = t) by lia; clear E; subst x.

(** Splits a successful run of a sequence of binds into its steps. *)
Ltac step H :=
  let a := fresh "v" in
  let c := fresh "c" in
  let H1 := fresh "R" in
  apply bind_OK in H; destruct H as (a & c & H1 & H).

(** ** Lists, ranges and slices *)

Lemma range_length n : length (range n) = Z.to_nat n.
Proof. unfold range. now rewrite length_map, length_seq. Qed.

Lemma range_In n k : In k (range n) <-> 0 <= k < n.
Proof.
  unfold range. rewrite in_map_iff. split.
  - intros (i & <- & Hi). apply in_seq in Hi. lia.
  - intros Hk. exists (Z.to_nat k). split; [lia |]. apply in_seq. lia.
Qed.

Lemma range_nonpos n : n <= 0 -> range n = [].
Proof.
  intros Hn. unfold range. replace (Z.to_nat n) with 0%nat by lia. reflexivity.
Qed.

Lemma range_item n k : 0 <= k < n -> item (range n) k = Some k.
Proof.
  intros Hk. unfold item, range.
  destruct (k <? 0) eqn:E; [lia |].
  rewrite nth_error_map, nth_error_seq.
  destruct (Nat.ltb_spec (Z.to_nat k) (Z.to_nat n)); [|lia].
  simpl. f_equal. lia.
Qed.

Lemma item_Some {A : Type} (l : list A) i :
  0 <= i < Z.of_nat (length l) -> exists x, item l i = Some x.
Proof.
  intros Hi. unfold item. destruct (i <? 0) eqn:E; [lia |].
  destruct (nth_error l (Z.to_nat i)) eqn:N; [eauto |].
  apply nth_error_None in N. lia.
Qed.

Lemma item_map {A B : Type} (f : A -> B) l i :
  item (map f l) i = option_map f (item l i).
Proof. unfold item. destruct (i <? 0); [reflexivity |]. apply nth_error_map. Qed.

(** When every index is inside the list, [gather] picks one element per
    index. *)
Lemma gather_length {A : Type} (l : list A) idxs :
  Forall (fun i => 0 <= i < Z.of_nat (length l)) idxs ->
  length (gather l idxs) = length idxs.
Proof.
  induction 1 as [| i rest Hi _ IH]; simpl; [reflexivity |].
  destruct (item_Some l i Hi) as (x & ->). simpl. now rewrite IH.
Qed.

Lemma gather_item {A : Type} (l : list A) idxs k i :
  Forall (fun i => 0 <= i < Z.of_nat (length l)) idxs ->
  item idxs k = Some i ->
  item (gather l idxs) k = item l i.
Proof.
  intros Hall. revert k.
  induction Hall as [| j rest Hj _ IH]; intros k Hk.
  - unfold item in Hk. destruct (k <? 0); [discriminate |].
    now destruct (Z.to_nat k).
  - simpl. destruct (item_Some l j Hj) as (x & Hx). rewrite Hx.
    unfold item in Hk |- *. destruct (k <? 0) eqn:E; [discriminate |].
    destruct (Z.to_nat k) as [| k'] eqn:Ek; simpl in *.
    + injection Hk as <-. unfold item in Hx.
      destruct (j <? 0); [discriminate | now rewrite Hx].
    + specialize (IH (Z.of_nat k')). unfold item in IH.
      destruct (Z.of_nat k' <? 0) eqn:E'; [lia |].
      rewrite Nat2Z.id in IH. rewrite IH by assumption. reflexivity.
Qed.

(** [t[col::step]] on [rows] rows of width [step], for a column inside a
    row: one element per row, the one of that column. *)
Lemma slice_step_column {A : Type} (t : list A) col step rows :
  Z.of_nat (length t) = step * rows ->
  0 <= col < step -> 0 <= rows ->
  exists s, slice_step t col step = Some s /\
            Z.of_nat (length s) = rows /\
            forall r, 0 <= r < rows -> item s r = item t (r * step + col).
Proof.
  intros Hlen Hcol Hrows. unfold slice_step.
  destruct (step =? 0) eqn:E0; [lia |].
  set (len := Z.of_nat (length t)) in *.
  assert (Hfirst : slice_first len col step = Z.min col len).
  { unfold slice_first, adjust_index.
    destruct (0 <? step) eqn:E1; [| lia]. destruct (col <? 0) eqn:E2; lia. }
  assert (Hcount : slice_count len (slice_first len col step) step = rows).
  { rewrite Hfirst. unfold slice_count.
    destruct (0 <? step) eqn:E1; [| lia].
    destruct (Z.eq_dec rows 0) as [-> | Hr].
    - replace len with 0 by lia.
      destruct (Z.min col 0 <? 0) eqn:E2; lia.
    - assert (col < len) by nia.
      replace (Z.min col len) with col by lia.
      destruct (col <? len) eqn:E2; [| lia].
      assert ((len - col - 1) / step = rows - 1); [| lia].
      symmetry. apply Z.div_unique with (r := step - col - 1); nia. }
  rewrite Hcount.
  assert (Hf : rows <> 0 -> slice_first len col step = col).
  { intros Hr. rewrite Hfirst. nia. }
  set (idxs := map (fun k => slice_first len col step + k * step) (range rows)).
  assert (Hall : Forall (fun i => 0 <= i < Z.of_nat (length t)) idxs).
  { apply Forall_forall. intros i Hi. unfold idxs in Hi.
    apply in_map_iff in Hi. destruct Hi as (k & <- & Hk).
    apply range_In in Hk. rewrite Hf by lia. fold len. nia. }
  eexists. split; [reflexivity |]. split.
  - rewrite gather_length by assumption. unfold idxs.
    rewrite length_map, range_length. lia.
  - intros r Hr. apply gather_item; [assumption |].
    unfold idxs. rewrite item_map, range_item by assumption. simpl.
    rewrite Hf by lia. f_equal. lia.
Qed.

(** ** [struct.unpack] and [decode_binary] *)

Lemma words32_length bs n :
  length bs = (4 * n)%nat -> length (words32 bs) = n.
Proof.
  revert bs. induction n as [| n IH]; intros bs Hlen.
  - destruct bs; [reflexivity | discriminate].
  - destruct bs as [| b0 [| b1 [| b2 [| b3 rest]]]]; simpl in Hlen; try lia.
    simpl. f_equal. apply IH. lia.
Qed.

Lemma unpack_i_length n buf t :
  unpack_i n buf = Some t -> Z.of_nat (length t) = Z.max 0 n.
Proof.
  unfold unpack_i, calcsize4.
  destruct (Z.eqb_spec (Z.of_nat (length buf)) (4 * Z.max 0 n)); [| discriminate].
  intros H. injection H as <-. rewrite length_map.
  rewrite (words32_length buf (Z.to_nat (Z.max 0 n))); lia.
Qed.

Lemma unpack_f_length n buf t :
  unpack_f n buf = Some t -> Z.of_nat (length t) = Z.max 0 n.
Proof.
  unfold unpack_f, calcsize4.
  destruct (Z.eqb_spec (Z.of_nat (length buf)) (4 * Z.max 0 n)); [| discriminate].
  intros H. injection H as <-. rewrite length_map.
  rewrite (words32_length buf (Z.to_nat (Z.max 0 n))); lia.
Qed.

Lemma slice_length {A : Type} (l : list A) a b :
  0 <= a -> 0 <= b ->
  Z.of_nat (length (slice l a b)) =
  Z.max 0 (Z.min b (Z.of_nat (length l)) - Z.min a (Z.of_nat (length l))).
Proof.
  intros Ha Hb. unfold slice, adjust_index.
  destruct (a <? 0) eqn:Ea; [lia |]. destruct (b <? 0) eqn:Eb; [lia |].
  rewrite length_firstn, length_skipn. lia.
Qed.

Lemma format_error_small n : n <= memory -> format_error n = None.
Proof.
  intros Hn. unfold format_error. pose proof memory_fits as Hm.
  destruct (maxsize <? n) eqn:E1; [lia |].
  destruct (memory <? n) eqn:E2; [lia | reflexivity].
Qed.


Lemma format_error_not_io n : format_error n <> Some IOError.
Proof.
  unfold format_error.
  destruct (maxsize <? n); [discriminate |].
  destruct (memory <? n); discriminate.
Qed.

Lemma decode_binary_cursor fc dt n shift c v c' :
  decode_binary fc dt n shift c = (OK v, c') ->
  c' = c + width dt * n + shift.
Proof.
  unfold decode_binary, width. destruct dt; cbv beta iota zeta.
  - destruct (utf8_decode _); intros H; [| discriminate].
    apply (f_equal snd) in H. cbn [snd] in H. lia.
  - destruct (format_error n); [discriminate |].
    destruct (unpack_i _ _); intros H; [| discriminate].
    apply (f_equal snd) in H. cbn [snd] in H. lia.
  - destruct (format_error n); [discriminate |].
    destruct (unpack_f _ _); intros H; [| discriminate].
    apply (f_equal snd) in H. cbn [snd] in H. lia.
  - discriminate.
Qed.

Lemma decode_binary_raise fc dt n shift c e c' :
  decode_binary fc dt n shift c = (Raise e, c') -> c' = c.
Proof.
  unfold decode_binary. destruct dt; cbv beta iota zeta.
  - destruct (utf8_decode _); intros H; [discriminate |]. now injection H.
  - destruct (format_error n); [intros H; now injection H |].
    destruct (unpack_i _ _); intros H; [discriminate |]. now injection H.
  - destruct (format_error n); [intros H; now injection H |].
    destruct (unpack_f _ _); intros H; [discriminate |]. now injection H.
  - intros H. now injection H.
Qed.

(** A read of one int32 returns the bare number: [as_int] does not fail
    after it. *)
Lemma read_one_scalar fc shift c v c' :
  decode_binary fc Dint 1 shift c = (OK v, c') -> exists i, v = Scalar i.
Proof.
  unfold decode_binary. destruct (format_error 1); [discriminate |].
  destruct (unpack_i 1 _) as [t |] eqn:U; intros H; [| discriminate].
  injection H as <- _. apply unpack_i_length in U.
  destruct t as [| x [| y t]]; cbn [length] in U; try lia. now exists x.
Qed.

Lemma read_int_OK fc shift c i c' :
  read_int fc shift c = (OK i, c') ->
  decode_binary fc Dint 1 shift c = (OK (Scalar i), c') /\
  c' = c + 4 + shift.
Proof.
  unfold read_int. intros H. step H.
  apply lift_OK in H. destruct H as [H ->].
  destruct (read_one_scalar _ _ _ _ _ R) as (j & ->).
  simpl in H. injection H as ->. split; [assumption |].
  apply decode_binary_cursor in R. simpl in R. lia.
Qed.

Lemma fold_skip (l : list Z) c :
  fold_left (fun c _ => c + 80) l c = c + 80 * Z.of_nat (length l).
Proof.
  revert c. induction l as [| x l IH]; intros c; simpl fold_left.
  - simpl. lia.
  - rewrite IH. cbn [length]. lia.
Qed.

Lemma skip_subbeams_spec n c :
  skip_subbeams n c = (OK tt, c + 80 * Z.max 0 n).
Proof.
  unfold skip_subbeams. f_equal.
  destruct (Z.eqb_spec n 0) as [-> | Hn]; [simpl; lia |].
  rewrite fold_skip, range_length. lia.
Qed.

(** ** The axes *)

Lemma axis_at_OK data step col c ax c' :
  axis_at (Tuple data) step col c = (OK ax, c') ->
  axis_of data step col = Some ax /\ c' = c.
Proof.
  unfold axis_at, axis_of, subscript_step. intros H.
  step H. apply lift_OK in R. destruct R as [R ->].
  step H. apply lift_OK in R0. destruct R0 as [R0 ->].
  apply ret_OK in H. destruct H as [-> ->].
  destruct (slice_step data col step); [| discriminate].
  destruct (slice_step data (col + 1) step); [| discriminate].
  injection R as ->. injection R0 as ->. auto.
Qed.

Lemma dict_get_set {V : Type} (d : dict V) k v k' :
  dict_get (dict_set d k v) k' = if k =? k' then Some v else dict_get d k'.
Proof.
  induction d as [| [k0 v0] d IH]; simpl.
  - reflexivity.
  - destruct (Z.eqb_spec k0 k) as [-> | Hne]; simpl.
    + destruct (k =? k'); reflexivity.
    + rewrite IH. destruct (Z.eqb_spec k0 k') as [-> | Hne'].
      * destruct (Z.eqb_spec k k'); [congruence | reflexivity].
      * reflexivity.
Qed.

(** After the leaf loop over [leaves], each of them maps to its axis and
    the other keys are as before. *)
Lemma assign_mlc_OK data step leaves :
  forall d c d' c',
    assign_mlc (Tuple data) step leaves d c = (OK d', c') ->
    c' = c /\
    forall k, dict_get d' k =
              if existsb (Z.eqb k) leaves
              then axis_of data step (30 + 2 * k)
              else dict_get d k.
Proof.
  induction leaves as [| leaf rest IH]; intros d c d' c' H;
    cbn [assign_mlc] in H.
  - apply ret_OK in H. destruct H as [-> ->]. auto.
  - step H. apply axis_at_OK in R. destruct R as [Hax ->].
    apply IH in H. destruct H as [-> Hget]. split; [reflexivity |].
    intros k. rewrite Hget. simpl existsb.
    destruct (existsb (Z.eqb k) rest) eqn:Ex.
    + now rewrite orb_true_r.
    + rewrite orb_false_r, dict_get_set, (Z.eqb_sym k leaf).
      destruct (Z.eqb_spec leaf k) as [-> | _]; [now rewrite Hax | reflexivity].
Qed.

Lemma assign_mlc_empty data step leaves d c d' c' :
  assign_mlc (Tuple data) step leaves d c = (OK d', c') ->
  leaves = [] -> d' = d.
Proof.
  intros H ->. cbn [assign_mlc] in H. apply ret_OK in H. now destruct H.
Qed.

Lemma existsb_range n k :
  existsb (Z.eqb k) (range n) = (0 <=? k) && (k <? n).
Proof.
  destruct (existsb (Z.eqb k) (range n)) eqn:E.
  - apply existsb_exists in E. destruct E as (x & Hx & Heq).
    apply Z.eqb_eq in Heq. subst x. apply range_In in Hx.
    symmetry. apply andb_true_iff. split; [apply Z.leb_le | apply Z.ltb_lt]; lia.
  - symmetry. apply not_true_is_false. intros Hk.
    apply andb_true_iff in Hk. destruct Hk as [H0 Hn].
    apply Z.leb_le in H0. apply Z.ltb_lt in Hn.
    assert (Hex : existsb (Z.eqb k) (range n) = true).
    { apply existsb_exists. exists k. split; [apply range_In; lia | apply Z.eqb_refl]. }
    congruence.
Qed.

(** ** Which steps can raise which exception *)

Lemma bind_Raise {A B : Type} (m : M A) (f : A -> M B) c e c' :
  bind m f c = (Raise e, c') ->
  m c = (Raise e, c') \/
  exists a c1, m c = (OK a, c1) /\ f a c1 = (Raise e, c').
Proof.
  unfold bind. destruct (m c) as [[a | e0] c1]; intros H.
  - right. now exists a, c1.
  - left. injection H as -> ->. reflexivity.
Qed.

Lemma never_bind {A B : Type} e (m : M A) (f : A -> M B) :
  never_raises e m -> (forall a, never_raises e (f a)) ->
  never_raises e (bind m f).
Proof.
  intros Hm Hf c c' H. apply bind_Raise in H.
  destruct H as [H | (a & c1 & _ & H)]; [now apply Hm in H | now apply Hf in H].
Qed.

Lemma never_ret {A : Type} e (a : A) : never_raises e (ret a).
Proof. intros c c'. unfold ret. discriminate. Qed.

Lemma never_lift {A : Type} e (r : res A) :
  r <> Raise e -> never_raises e (lift r).
Proof. intros Hr c c'. unfold lift. intros H. apply Hr. congruence. Qed.

Lemma decode_binary_no_io fc dt n shift :
  never_raises IOError (decode_binary fc dt n shift).
Proof.
  intros c c'. unfold decode_binary. destruct dt; cbv beta iota zeta.
  - destruct (utf8_decode _); discriminate.
  - pose proof (format_error_not_io n) as Hf.
    destruct (format_error n); [congruence |].
    destruct (unpack_i _ _); discriminate.
  - pose proof (format_error_not_io n) as Hf.
    destruct (format_error n); [congruence |].
    destruct (unpack_f _ _); discriminate.
  - discriminate.
Qed.

Lemma as_int_no_io v : as_int v <> Raise IOError.
Proof. destruct v; discriminate. Qed.

Lemma subscript_last_no_io v : subscript_last v <> Raise IOError.
Proof. destruct v as [x | [| x t]]; discriminate. Qed.

Lemma sum_no_io v : sum v <> Raise IOError.
Proof. destruct v; discriminate. Qed.

Lemma subscript_step_no_io {A : Type} (v : scalar_or_tuple A) start step :
  subscript_step v start step <> Raise IOError.
Proof.
  unfold subscript_step. destruct v; [discriminate |].
  destruct (slice_step t start step); discriminate.
Qed.

Lemma read_int_no_io fc shift : never_raises IOError (read_int fc shift).
Proof.
  unfold read_int. apply never_bind; [apply decode_binary_no_io |].
  intros v. apply never_lift, as_int_no_io.
Qed.

Lemma skip_subbeams_no_io n : never_raises IOError (skip_subbeams n).
Proof. intros c c'. rewrite skip_subbeams_spec. discriminate. Qed.

Lemma axis_at_no_io data step col :
  never_raises IOError (axis_at data step col).
Proof.
  unfold axis_at.
  apply never_bind; [apply never_lift, subscript_step_no_io | intros e].
  apply never_bind; [apply never_lift, subscript_step_no_io | intros a].
  apply never_ret.
Qed.

Lemma assign_mlc_no_io data step leaves :
  forall d, never_raises IOError (assign_mlc data step leaves d).
Proof.
  induction leaves as [| leaf rest IH]; intros d; cbn [assign_mlc].
  - apply never_ret.
  - apply never_bind; [apply axis_at_no_io | intros ax; apply IH].
Qed.

Lemma bind_raise_eq {A B : Type} (m : M A) (f : A -> M B) c e c' :
  m c = (Raise e, c') -> bind m f c = (Raise e, c').
Proof. unfold bind. now intros ->. Qed.

Lemma bind_ok_eq {A B : Type} (m : M A) (f : A -> M B) c a c1 :
  m c = (OK a, c1) -> bind m f c = f a c1.
Proof. unfold bind. now intros ->. Qed.

Lemma lift_last_no_io v : never_raises IOError (lift (subscript_last v)).
Proof. apply never_lift, subscript_last_no_io. Qed.


(** A read of [n > 0] numbers that asks for bytes past the end of the
    buffer finds a buffer of the wrong size. *)
Lemma short_slice_size (fc : list byte) c n :
  0 <= c -> 0 < n -> Z.of_nat (length fc) < c + 4 * n ->
  (Z.of_nat (length (slice fc c (c + 4 * n))) =? calcsize4 n) = false.
Proof.
  intros Hc Hn Hlen. apply Z.eqb_neq.
  rewrite slice_length by lia. unfold calcsize4. lia.
Qed.



Create HintDb no_io.

#[local] Hint Resolve never_ret decode_binary_no_io read_int_no_io
  skip_subbeams_no_io axis_at_no_io assign_mlc_no_io lift_last_no_io : no_io.

(** Discharges [never_raises IOError] along a sequence of binds. *)
Ltac no_io :=
  repeat (apply never_bind; [auto with no_io | intros ?]);
  auto with no_io.

Section Properties.

Variable pyfloat : Type.
Variable float_of_str : list Z -> option pyfloat.

Lemma read_signature_OK fc c s c' :
  read_signature fc c = (OK s, c') ->
  decode_binary fc Dstr 16 0 c = (OK s, c') /\ c' = c + 16.
Proof.
  unfold read_signature.
  destruct (decode_binary fc Dstr 16 0 c) as [[s0 | e] c0] eqn:D; intros H;
    [| discriminate].
  injection H as -> ->. split; [reflexivity |].
  apply decode_binary_cursor in D. simpl in D. lia.
Qed.

(** What a successful read of the header did, step by step. *)
Lemma read_header_OK fc c (h : Header pyfloat) c' :
  read_header float_of_str fc c = (OK h, c') ->
  decode_binary fc Dstr 16 0 c = (OK (signature h), c + 16) /\
  (exists text,
      decode_binary fc Dstr 16 0 (c + 16) = (OK text, c + 32) /\
      float_of_str text = Some (version h)) /\
  decode_binary fc Dint 1 0 (c + 32) = (OK (Scalar (header_size h)), c + 36) /\
  decode_binary fc Dint 1 0 (c + 40) = (OK (Scalar (num_axes h)), c + 44) /\
  decode_binary fc Dint (num_axes h) 0 (c + 44 + 4 * num_axes h)
    = (OK (samples_per_axis h), c + 44 + 8 * num_axes h) /\
  subscript_last (samples_per_axis h) = OK (num_mlc_leaves h + 2) /\
  decode_binary fc Dint 1 (1024 - (64 + num_axes h * 8))
    (c + 60 + 8 * num_axes h) = (OK (Scalar (mlc_model h)), c') /\
  c' = c + 1024.
Proof.
  unfold read_header. intros H.
  step H. apply read_signature_OK in R. destruct R as [Rsig ->].
  step H. pose proof (decode_binary_cursor _ _ _ _ _ _ _ R) as E.
  step H. unfold py_float in R0. apply lift_OK in R0. destruct R0 as [Rv ->].
  step H. apply read_int_OK in R0. destruct R0 as [Rhs E1].
  step H. apply read_int_OK in R0. destruct R0 as [Rsi E2].
  step H. apply read_int_OK in R0. destruct R0 as [Rna E3].
  step H. pose proof (decode_binary_cursor _ _ _ _ _ _ _ R0) as E4.
  step H. pose proof (decode_binary_cursor _ _ _ _ _ _ _ R1) as E5.
  step H. apply lift_OK in R2. destruct R2 as [Rlast ->].
  step H. apply read_int_OK in R2. destruct R2 as [Rcs E6].
  step H. apply read_int_OK in R2. destruct R2 as [Rsb E7].
  step H. apply read_int_OK in R2. destruct R2 as [Rtr E8].
  step H. apply read_int_OK in R2. destruct R2 as [Rsn E9].
  step H. apply read_int_OK in R2. destruct R2 as [Rmm E10].
  apply ret_OK in H. destruct H as [-> ->].
  cbn [width] in E, E4, E5.
  cbn [signature version header_size num_axes samples_per_axis
       num_mlc_leaves mlc_model].
  pin c0 (c + 32) E. pin c1 (c + 36) E1. pin c2 (c + 40) E2.
  pin c3 (c + 44) E3. pin c4 (c + 44 + 4 * v4) E4.
  pin c5 (c + 44 + 8 * v4) E5. pin c6 (c + 48 + 8 * v4) E6.
  pin c7 (c + 52 + 8 * v4) E7. pin c8 (c + 56 + 8 * v4) E8.
  pin c9 (c + 60 + 8 * v4) E9.
  repeat split; try assumption.
  - exists v0. split; [assumption |].
    destruct (float_of_str v0); [now injection Rv as -> | discriminate].
  - rewrite Rlast. f_equal. lia.
  - lia.
Qed.

Lemma read_snapshots_OK fc (h : Header pyfloat) c sd c' :
  read_snapshots fc h c = (OK sd, c') ->
  exists total data,
    sum (samples_per_axis h) = OK total /\
    fst sd = total * 2 /\
    snd sd = Tuple data /\
    decode_binary fc Dfloat (total * 2 * num_snapshots h) 0 c
      = (OK (Tuple data), c') /\
    Z.of_nat (length data) = Z.max 0 (total * 2 * num_snapshots h).
Proof.
  unfold read_snapshots. intros H.
  step H. apply lift_OK in R. destruct R as [Rsum ->].
  step H. apply ret_OK in H. destruct H as [-> ->]. cbn [fst snd].
  exists v. revert R. unfold decode_binary.
  destruct (format_error _); [discriminate |].
  destruct (unpack_f _ _) as [t |] eqn:U; intros R; [| discriminate].
  apply unpack_f_length in U.
  assert (Ht : unwrap_single t = Tuple t).
  { destruct t as [| x [| y t]]; try reflexivity.
    cbn [length] in U. exfalso.
    assert (Heven : v * 2 * num_snapshots h = 2 * (v * num_snapshots h)) by ring.
    rewrite Heven in U. lia. }
  rewrite Ht in R. injection R as <- <-.
  exists t. repeat split; try assumption. now rewrite Ht.
Qed.

Lemma assign_axes_OK (h : Header pyfloat) step data c log c' :
  assign_axes h step (Tuple data) c = (OK log, c') ->
  c' = c /\
  header log = h /\ step_size log = step /\ snapshot_data log = Tuple data /\
  (forall col ax, In (col, ax) (fixed_axes log) ->
                  axis_of data step col = Some ax) /\
  (forall k, dict_get (mlc log) k =
             if (0 <=? k) && (k <? num_mlc_leaves h)
             then axis_of data step (30 + 2 * k) else None) /\
  (num_mlc_leaves h <= 0 -> mlc log = []).
Proof.
  unfold assign_axes. cbv zeta. intros H.
  repeat (step H;
          match goal with
          | R : axis_at _ _ _ _ = _ |- _ =>
              apply axis_at_OK in R; destruct R as [? ->]
          end).
  step H. apply ret_OK in H. destruct H as [-> ->].
  pose proof (assign_mlc_OK _ _ _ _ _ _ _ R) as [-> Hget].
  cbn [header step_size snapshot_data mlc].
  repeat split.
  - intros col ax Hin. unfold fixed_axes in Hin.
    cbn [collimator gantry jaw_y1 jaw_y2 jaw_x1 jaw_x2 couch_vrt couch_lng
         couch_lat couch_rtn mu beam_hold control_point carraigeA carriageB
         In] in Hin.
    repeat (destruct Hin as [Hin | Hin];
            [injection Hin as <- <-; assumption |]).
    contradiction.
  - intros k. rewrite Hget, existsb_range. cbn [dict_get].
    reflexivity.
  - intros Hn. apply (assign_mlc_empty _ _ _ _ _ _ _ R).
    now apply range_nonpos.
Qed.

(** The stages of a successful run: the header ends at byte 1024, the
    sub-beam loop moves on by 80 bytes per sub-beam, one read takes the
    snapshot data, and the axes are cut out of it. *)
Lemma decode_stages fc c0 (log : TrajectoryLog pyfloat) c' :
  tlog2csv float_of_str fc c0 = (OK log, c') ->
  let h := header log in
  exists total data,
    read_header float_of_str fc 0 = (OK h, 1024) /\
    sum (samples_per_axis h) = OK total /\
    step_size log = total * 2 /\
    snapshot_data log = Tuple data /\
    decode_binary fc Dfloat (step_size log * num_snapshots h) 0
      (1024 + 80 * Z.max 0 (num_subbeams h)) = (OK (Tuple data), c') /\
    Z.of_nat (length data) = Z.max 0 (step_size log * num_snapshots h) /\
    assign_axes h (step_size log) (Tuple data) c' = (OK log, c').
Proof.
  unfold tlog2csv, decode. intros H.
  step H. pose proof (read_header_OK _ _ _ _ R) as Hh.
  assert (c = 1024) as -> by (destruct Hh as (_ & _ & _ & _ & _ & _ & _ & E); lia).
  step H. rewrite skip_subbeams_spec in R0.
  assert (c = 1024 + 80 * Z.max 0 (num_subbeams v)) as -> by congruence.
  clear R0.
  step H. apply read_snapshots_OK in R0.
  destruct R0 as (total & data & Hsum & Hstep & Hdata & Hread & Hlen).
  rewrite Hstep, Hdata in H.
  pose proof (assign_axes_OK _ _ _ _ _ _ H) as (-> & Hhd & Hst & Hsd & _).
  cbv zeta. rewrite Hhd, Hst. exists total, data.
  repeat split; assumption.
Qed.

Lemma fixed_axes_col (log : TrajectoryLog pyfloat) col ax :
  In (col, ax) (fixed_axes log) -> 0 <= col <= 28.
Proof.
  unfold fixed_axes. cbn [In]. intros Hin.
  repeat (destruct Hin as [Hin | Hin]; [injection Hin as <- _; lia |]).
  contradiction.
Qed.

Lemma axis_of_columns data step rows col ax :
  axis_of data step col = Some ax ->
  Z.of_nat (length data) = step * rows ->
  0 <= col -> col + 1 < step -> 0 <= rows ->
  is_column data step rows col (expected ax) /\
  is_column data step rows (col + 1) (actual ax).
Proof.
  unfold axis_of. intros Hax Hlen Hcol Hstep Hrows.
  destruct (slice_step_column data col step rows Hlen) as (e & He & Hel & Hei);
    [lia | lia |].
  destruct (slice_step_column data (col + 1) step rows Hlen)
    as (a & Ha & Hal & Hai); [lia | lia |].
  rewrite He, Ha in Hax. injection Hax as <-. cbn [expected actual].
  split; split; assumption.
Qed.

(** C1 (as amended): the decoder computes the row stride
    [sum(samples_per_axis) * 2] and takes the snapshot data in one read
    of [stride * num_snapshots] float32 values, at the byte where the
    sub-beam skip ended. When [num_snapshots] is not negative, every
    fixed axis whose two columns lie inside a row (column + 1 < stride)
    is those columns sampled across all the rows: collimator 0-1,
    gantry 2-3, jaws 4-11, couch 12-19, monitor units 20-21, beam hold
    22-23, control point 24-25, carriages 26-29; and so is every leaf [i]
    (1-indexed, up to [num_mlc_leaves]) with its columns
    [30 + 2 (i - 1)] and [31 + 2 (i - 1)], when they lie inside a row. *)
Theorem C1_snapshot_partition fc c0 (log : TrajectoryLog pyfloat) c' :
  tlog2csv float_of_str fc c0 = (OK log, c') ->
  0 <= num_snapshots (header log) ->
  let h := header log in
  let stride := step_size log in
  let rows := num_snapshots h in
  exists total data,
    sum (samples_per_axis h) = OK total /\
    stride = total * 2 /\
    decode_binary fc Dfloat (stride * rows) 0
      (1024 + 80 * Z.max 0 (num_subbeams h)) = (OK (Tuple data), c') /\
    snapshot_data log = Tuple data /\
    Z.of_nat (length data) = Z.max 0 (stride * rows) /\
    (forall col ax, In (col, ax) (fixed_axes log) -> col + 1 < stride ->
       is_column data stride rows col (expected ax) /\
       is_column data stride rows (col + 1) (actual ax)) /\
    (forall i, 1 <= i <= num_mlc_leaves h -> 31 + 2 * (i - 1) < stride ->
       exists ax, dict_get (mlc log) (i - 1) = Some ax /\
         is_column data stride rows (30 + 2 * (i - 1)) (expected ax) /\
         is_column data stride rows (31 + 2 * (i - 1)) (actual ax)).
Proof.
  intros Hrun Hrows. cbv zeta.
  destruct (decode_stages _ _ _ _ Hrun)
    as (total & data & _ & Hsum & Hstep & Hdata & Hread & Hlen & Hax).
  apply assign_axes_OK in Hax.
  destruct Hax as (_ & _ & _ & _ & Hfixed & Hmlc & _).
  exists total, data.
  split; [assumption |]. split; [assumption |]. split; [assumption |].
  split; [assumption |]. split; [assumption |]. split.
  - intros col ax Hin Hcol. pose proof (fixed_axes_col _ _ _ Hin) as Hc.
    apply axis_of_columns; auto; nia.
  - intros i Hi Hcol. specialize (Hmlc (i - 1)).
    replace ((0 <=? i - 1) && (i - 1 <? num_mlc_leaves (header log)))
      with true in Hmlc
      by (symmetry; apply andb_true_iff; split;
          [apply Z.leb_le | apply Z.ltb_lt]; lia).
    destruct (axis_of data (step_size log) (30 + 2 * (i - 1))) as [ax |] eqn:Eax.
    + exists ax. split; [assumption |].
      replace (31 + 2 * (i - 1)) with (30 + 2 * (i - 1) + 1) by lia.
      apply axis_of_columns; auto; nia.
    + exfalso. unfold axis_of, slice_step in Eax.
      destruct (step_size log =? 0) eqn:E0; [lia | discriminate].
Qed.

(** C2 (as amended): for every buffer that decodes successfully with a
    non-negative [num_snapshots], every fixed axis and every MLC leaf
    entry whose two columns lie inside a row (column + 1 < stride) has
    [len(expected) == len(actual) == num_snapshots]. *)
Theorem C2_axis_lengths fc c0 (log : TrajectoryLog pyfloat) c' :
  tlog2csv float_of_str fc c0 = (OK log, c') ->
  0 <= num_snapshots (header log) ->
  (forall col ax, In (col, ax) (fixed_axes log) -> col + 1 < step_size log ->
     Z.of_nat (length (expected ax)) = num_snapshots (header log) /\
     Z.of_nat (length (actual ax)) = num_snapshots (header log)) /\
  (forall leaf ax, dict_get (mlc log) leaf = Some ax ->
     31 + 2 * leaf < step_size log ->
     Z.of_nat (length (expected ax)) = num_snapshots (header log) /\
     Z.of_nat (length (actual ax)) = num_snapshots (header log)).
Proof.
  intros Hrun Hrows.
  destruct (decode_stages _ _ _ _ Hrun)
    as (total & data & _ & Hsum & Hstep & Hdata & Hread & Hlen & Hax).
  apply assign_axes_OK in Hax.
  destruct Hax as (_ & _ & _ & _ & Hfixed & Hmlc & _).
  split.
  - intros col ax Hin Hcol. pose proof (fixed_axes_col _ _ _ Hin) as Hc.
    destruct (axis_of_columns data (step_size log)
                (num_snapshots (header log)) col ax) as [[He _] [Ha _]];
      auto; nia.
  - intros leaf ax Hget Hcol. rewrite Hmlc in Hget.
    destruct ((0 <=? leaf) && (leaf <? num_mlc_leaves (header log))) eqn:Er;
      [| discriminate].
    apply andb_true_iff in Er. destruct Er as [E0 _]. apply Z.leb_le in E0.
    destruct (axis_of_columns data (step_size log)
                (num_snapshots (header log)) (30 + 2 * leaf) ax)
      as [[He _] [Ha _]]; auto; nia.
Qed.

Lemma py_float_no_io text : never_raises IOError (py_float float_of_str text).
Proof.
  unfold py_float. apply never_lift. destruct (float_of_str text); discriminate.
Qed.

Lemma read_snapshots_no_io fc (h : Header pyfloat) :
  never_raises IOError (read_snapshots fc h).
Proof.
  unfold read_snapshots.
  apply never_bind; [apply never_lift, sum_no_io | intros total]. no_io.
Qed.

Lemma assign_axes_no_io (h : Header pyfloat) step data :
  never_raises IOError (assign_axes h step data).
Proof. unfold assign_axes. cbv zeta. no_io. Qed.

(** C3 (as amended): [mlc_model] is read as one int32 at byte
    [60 + num_axes * 8], and the cursor is then moved by
    [1024 - (64 + num_axes * 8)] bytes, whatever the sign of that
    number: the position afterwards is 1024, the header size of the
    format, whatever [header_size] the stream declares. *)
Theorem C3_header_end fc (h : Header pyfloat) c' :
  read_header float_of_str fc 0 = (OK h, c') ->
  decode_binary fc Dint 1 (1024 - (64 + num_axes h * 8))
    (60 + 8 * num_axes h) = (OK (Scalar (mlc_model h)), c') /\
  c' = (60 + 8 * num_axes h) + 4 + (1024 - (64 + num_axes h * 8)) /\
  c' = 1024.
Proof.
  intros H. apply read_header_OK in H.
  destruct H as (_ & _ & _ & _ & _ & _ & Hm & E).
  replace (0 + 60 + 8 * num_axes h) with (60 + 8 * num_axes h) in Hm by lia.
  split; [assumption |]. lia.
Qed.

(** The keys of the leaf entries of a decoded log. *)
Lemma mlc_keys fc c0 (log : TrajectoryLog pyfloat) c' :
  tlog2csv float_of_str fc c0 = (OK log, c') ->
  (forall leaf, dict_get (mlc log) leaf <> None ->
                0 <= leaf < num_mlc_leaves (header log)) /\
  (num_mlc_leaves (header log) <= 0 -> mlc log = []).
Proof.
  intros Hrun.
  destruct (decode_stages _ _ _ _ Hrun)
    as (total & data & _ & _ & _ & _ & _ & _ & Hax).
  apply assign_axes_OK in Hax.
  destruct Hax as (_ & _ & _ & _ & _ & Hmlc & Hempty).
  split; [| assumption].
  intros leaf. rewrite Hmlc.
  destruct (Z.leb_spec 0 leaf);
    destruct (Z.ltb_spec leaf (num_mlc_leaves (header log)));
    cbn [andb]; try lia; congruence.
Qed.

(** C4 (as amended): the decoder computes [num_mlc_leaves] as
    [samples_per_axis[-1] - 2]; a negative value does not make decoding
    fail: the leaf loop then does not run and the log has no MLC leaf
    entry. In general the entries are those of the leaves
    [0 .. num_mlc_leaves - 1]. *)
Theorem C4_num_mlc_leaves fc c0 (log : TrajectoryLog pyfloat) c' :
  tlog2csv float_of_str fc c0 = (OK log, c') ->
  let h := header log in
  (exists t, samples_per_axis h = Tuple t /\ t <> [] /\
             num_mlc_leaves h = last t 0 - 2) /\
  (forall leaf, dict_get (mlc log) leaf <> None <->
                0 <= leaf < num_mlc_leaves h) /\
  (num_mlc_leaves h < 0 -> mlc log = []).
Proof.
  intros Hrun. cbv zeta.
  destruct (decode_stages _ _ _ _ Hrun)
    as (total & data & Hh & _ & _ & _ & _ & _ & Hax).
  apply read_header_OK in Hh. destruct Hh as (_ & _ & _ & _ & _ & Hlast & _).
  apply assign_axes_OK in Hax.
  destruct Hax as (_ & _ & Hst & _ & Hfixed & Hmlc & Hempty).
  split; [| split].
  - unfold subscript_last in Hlast.
    destruct (samples_per_axis (header log)) as [x | [| x t]];
      try discriminate.
    exists (x :: t). split; [reflexivity |]. split; [discriminate |].
    change (OK (last (x :: t) 0) = OK (num_mlc_leaves (header log) + 2))
      in Hlast.
    assert (last (x :: t) 0 = num_mlc_leaves (header log) + 2) by congruence.
    lia.
  - intros leaf. rewrite Hmlc.
    destruct (Z.leb_spec 0 leaf); destruct (Z.ltb_spec leaf (num_mlc_leaves (header log)));
      cbn [andb]; split; try lia; try congruence.
    intros _. assert (Hc : In (0, collimator log) (fixed_axes log)) by (left; reflexivity).
    apply Hfixed in Hc. unfold axis_of, slice_step in Hc |- *.
    destruct (step_size log =? 0); discriminate.
  - intros Hn. apply Hempty. lia.
Qed.

#[local] Hint Resolve py_float_no_io read_snapshots_no_io assign_axes_no_io
  : no_io.

(** Concludes from a run of a continuation that raised IOError although
    it cannot. *)
Ltac absurd_io H :=
  cbv beta in H;
  match type of H with
  | ?m ?c = (Raise IOError, _) =>
      let N := fresh "N" in
      assert (N : never_raises IOError m) by no_io;
      exact (N _ _ H)
  end.


(** C6 (as amended): the run fails with IOError, the error of a file that
    is not a trajectory log, exactly when the read of the signature
    raises, which it does when the first 16 bytes (the whole buffer, if
    shorter) are not valid UTF-8; the cursor is then still at 0 and
    nothing more is read. The signature text is not compared with a tag. *)
Theorem C6_unrecognized_format fc c0 :
  (utf8_decode (slice fc 0 16) = None ->
   tlog2csv float_of_str fc c0 = (Raise IOError, 0)) /\
  (utf8_decode (slice fc 0 16) <> None ->
   forall c, tlog2csv float_of_str fc c0 <> (Raise IOError, c)).
Proof.
  unfold tlog2csv, decode. split.
  - intros U. apply bind_raise_eq. unfold read_header. apply bind_raise_eq.
    unfold read_signature, decode_binary. change (0 + 16) with 16.
    rewrite U. reflexivity.
  - intros U c H. apply bind_Raise in H.
    destruct H as [H | (h & c1 & _ & H)]; [| absurd_io H].
    unfold read_header in H. apply bind_Raise in H.
    destruct H as [H | (sig & c1 & _ & H)]; [| absurd_io H].
    unfold read_signature, decode_binary in H. change (0 + 16) with 16 in H.
    destruct (utf8_decode (slice fc 0 16)); [discriminate | now apply U].
Qed.

(** C8 (as amended): the header reads of a run end at byte 1024,
    whatever [header_size] the stream declares, and from there the
    sub-beam loop moves the cursor on by exactly
    [80 * max(0, num_subbeams)] bytes before the snapshot data are read:
    [80 * num_subbeams] bytes for a count that is not negative, 400
    bytes for five sub-beams and none for zero, and none for a negative
    count. *)
Theorem C8_subbeam_skip n c :
  skip_subbeams n c = (OK tt, c + 80 * Z.max 0 n) /\
  (0 <= n -> skip_subbeams n c = (OK tt, c + 80 * n)) /\
  (n = 5 -> skip_subbeams n c = (OK tt, c + 400)) /\
  (n <= 0 -> skip_subbeams n c = (OK tt, c)) /\
  (forall fc c0 (log : TrajectoryLog pyfloat) c',
     tlog2csv float_of_str fc c0 = (OK log, c') ->
     num_subbeams (header log) = n ->
     read_header float_of_str fc 0 = (OK (header log), 1024) /\
     skip_subbeams n 1024 = (OK tt, 1024 + 80 * Z.max 0 n) /\
     decode_binary fc Dfloat
       (step_size log * num_snapshots (header log)) 0
       (1024 + 80 * Z.max 0 n)
     = (OK (snapshot_data log), c')).
Proof.
  pose proof (skip_subbeams_spec n c) as Hskip.
  split; [assumption |]. split; [| split; [| split]].
  - intros Hn. rewrite Hskip. do 2 f_equal. lia.
  - intros ->. rewrite Hskip. do 2 f_equal.
  - intros Hn. rewrite Hskip. f_equal. lia.
  - intros fc c0 log c' Hrun Hsub.
    destruct (decode_stages _ _ _ _ Hrun)
      as (total & data & Hh & _ & _ & Hdata & Hread & _).
    split; [assumption |]. split; [apply skip_subbeams_spec |].
    now rewrite Hdata, <- Hread, Hsub.
Qed.

End Properties.

(** A successful read of [n > 0] numbers lies inside the buffer. *)
Lemma read_numbers_inside fc dt n shift c (v : output dt) c' :
  decode_binary fc dt n shift c = (OK v, c') ->
  dt = Dint \/ dt = Dfloat -> 0 <= c -> 0 < n ->
  c + 4 * n <= Z.of_nat (length fc).
Proof.
  intros H Hdt Hc Hn.
  destruct (Z.le_gt_cases (c + 4 * n) (Z.of_nat (length fc))) as [| Hlt];
    [assumption | exfalso].
  revert H. destruct Hdt as [-> | ->]; unfold decode_binary;
    cbv beta iota zeta; (destruct (format_error n); [discriminate |]);
    [unfold unpack_i | unfold unpack_f];
    rewrite short_slice_size by lia; discriminate.
Qed.

(** C7 (as amended): [decode_binary] adds [cursor_shift] to the cursor
    whatever its sign and without looking at the buffer: after a
    successful read the position is the old one plus the bytes asked for
    plus the shift, and the same read succeeds, with the same result,
    under every other shift, a negative one included, which moves the
    position back. The position does not decrease across a read with a
    non-negative count and shift. The bytes of a read of int32 or
    float32 values that starts inside the buffer, with a count that is
    not negative, lie inside the buffer; the position afterwards is
    their end plus the shift: inside the buffer when the shift is zero,
    and past its end when the shift is larger than the bytes that
    remain. *)
Theorem C7_cursor_motion fc dt n shift c (v : output dt) c' :
  decode_binary fc dt n shift c = (OK v, c') ->
  c' = c + width dt * n + shift /\
  (forall shift',
     decode_binary fc dt n shift' c = (OK v, c + width dt * n + shift')) /\
  (0 <= n -> 0 <= shift -> c <= c') /\
  (dt <> Dstr -> 0 <= n -> 0 <= c <= Z.of_nat (length fc) ->
   0 <= c + width dt * n <= Z.of_nat (length fc) /\
   (shift = 0 -> 0 <= c' <= Z.of_nat (length fc)) /\
   (Z.of_nat (length fc) - (c + width dt * n) < shift ->
    Z.of_nat (length fc) < c')).
Proof.
  intros H. pose proof (decode_binary_cursor _ _ _ _ _ _ _ H) as E.
  split; [assumption |]. split; [| split].
  - intros shift'. revert H. unfold decode_binary, width.
    destruct dt; cbv beta iota zeta.
    + destruct (utf8_decode _); intros H; [| discriminate].
      replace (c + 1 * n) with (c + n) by lia.
      apply (f_equal fst) in H. cbn [fst] in H. now rewrite H.
    + destruct (format_error n); [discriminate |].
      destruct (unpack_i _ _); intros H; [| discriminate].
      apply (f_equal fst) in H. cbn [fst] in H. now rewrite H.
    + destruct (format_error n); [discriminate |].
      destruct (unpack_f _ _); intros H; [| discriminate].
      apply (f_equal fst) in H. cbn [fst] in H. now rewrite H.
    + discriminate.
  - intros Hn Hs. destruct dt; cbn [width] in E; lia.
  - intros Hdt Hn Hc.
    assert (Hin : 0 <= c + width dt * n <= Z.of_nat (length fc)).
    { destruct (Z.eq_dec n 0) as [-> | Hn0]; [lia |].
      destruct dt; cbn [width]; try congruence.
      - pose proof (read_numbers_inside _ _ _ _ _ _ _ H
                      (or_introl eq_refl)). lia.
      - pose proof (read_numbers_inside _ _ _ _ _ _ _ H
                      (or_intror eq_refl)). lia.
      - discriminate. }
    split; [assumption |]. split; intros; lia.
Qed.

(** C10: whatever the buffer, the position, the count and the shift, a
    requested data type that is none of text, int32 and float32 makes
    [decode_binary] raise TypeError, and the cursor is left where it
    was. *)
Theorem C10_invalid_dtype fc dt n shift c :
  dt <> Dstr -> dt <> Dint -> dt <> Dfloat ->
  decode_binary fc dt n shift c = (Raise TypeError, c).
Proof.
  intros Hs Hi Hf. destruct dt; try congruence. reflexivity.
Qed.

(** ** More about reads: sizes, ranges and extensions of the buffer *)

(** What a successful read of [n] int32 values returned. *)
Lemma read_ints_OK fc n shift c v c' :
  decode_binary fc Dint n shift c = (OK v, c') ->
  exists t, v = unwrap_single t /\
            Z.of_nat (length t) = Z.max 0 n /\
            t = map signed32 (words32 (slice fc c (c + 4 * n))).
Proof.
  unfold decode_binary. destruct (format_error n); [discriminate |].
  destruct (unpack_i n _) as [t |] eqn:U; intros H; [| discriminate].
  exists t. split; [congruence |]. split; [now apply unpack_i_length in U |].
  revert U. unfold unpack_i. destruct (_ =? _); congruence.
Qed.

Lemma slice_app {A : Type} (l e : list A) a b :
  0 <= a -> 0 <= b -> b <= Z.of_nat (length l) \/ b <= a ->
  slice (l ++ e) a b = slice l a b.
Proof.
  intros Ha Hb Hcase. unfold slice, adjust_index.
  destruct (a <? 0) eqn:Ea; [lia |]. destruct (b <? 0) eqn:Eb; [lia |].
  rewrite length_app, Nat2Z.inj_add.
  set (n := Z.of_nat (length l)). set (m := Z.of_nat (length e)).
  assert (Hm : 0 <= m) by lia. assert (Hn0 : 0 <= n) by lia.
  destruct (Z.le_gt_cases b a) as [Hba | Hab].
  - replace (Z.to_nat (Z.min b (n + m) - Z.min a (n + m))) with 0%nat by lia.
    replace (Z.to_nat (Z.min b n - Z.min a n)) with 0%nat by lia.
    reflexivity.
  - assert (Hbn : b <= n) by lia.
    replace (Z.min b (n + m)) with b by lia.
    replace (Z.min a (n + m)) with a by lia.
    replace (Z.min b n) with b by lia. replace (Z.min a n) with a by lia.
    rewrite skipn_app, firstn_app, length_skipn.
    replace (Z.to_nat (b - a) - (length l - Z.to_nat a))%nat with 0%nat by lia.
    cbn [firstn]. now rewrite app_nil_r.
Qed.

(** A read that succeeded, with a count that is not negative and from a
    position that is not, succeeds alike on the buffer followed by more
    bytes; a text read must have found all its bytes. *)
Lemma decode_binary_app fc extra dt n shift c (v : output dt) c' :
  decode_binary fc dt n shift c = (OK v, c') ->
  0 <= c -> 0 <= n ->
  (dt = Dstr -> c + n <= Z.of_nat (length fc)) ->
  decode_binary (fc ++ extra) dt n shift c = (OK v, c').
Proof.
  intros H Hc Hn Hstr.
  assert (Hslice : forall w, w = 1 \/ w = 4 ->
            c + w * n <= Z.of_nat (length fc) \/ n = 0 ->
            slice (fc ++ extra) c (c + w * n) = slice fc c (c + w * n)).
  { intros w Hw Hin. apply slice_app; lia. }
  destruct dt.
  - revert H. unfold decode_binary.
    replace (c + n) with (c + 1 * n) by lia.
    rewrite Hslice by (auto; left; specialize (Hstr eq_refl); lia). auto.
  - assert (Hin : c + 4 * n <= Z.of_nat (length fc) \/ n = 0).
    { destruct (Z.eq_dec n 0); [now right | left].
      eapply read_numbers_inside; eauto; lia. }
    revert H. unfold decode_binary. cbv zeta. rewrite Hslice by auto. auto.
  - assert (Hin : c + 4 * n <= Z.of_nat (length fc) \/ n = 0).
    { destruct (Z.eq_dec n 0); [now right | left].
      eapply read_numbers_inside; eauto; lia. }
    revert H. unfold decode_binary. cbv zeta. rewrite Hslice by auto. auto.
  - discriminate.
Qed.

Lemma read_int_app fc extra shift c i c' :
  read_int fc shift c = (OK i, c') -> 0 <= c ->
  read_int (fc ++ extra) shift c = (OK i, c').
Proof.
  intros H Hc. apply read_int_OK in H. destruct H as [H _].
  unfold read_int.
  assert (H1 : 0 <= 1) by lia.
  assert (H2 : Dint = Dstr -> c + 1 <= Z.of_nat (length fc)) by discriminate.
  rewrite (bind_ok_eq _ _ _ _ _ (decode_binary_app _ extra _ _ _ _ _ _ H Hc H1 H2)).
  reflexivity.
Qed.

Lemma signed32_range u :
  0 <= u < 4294967296 -> -2147483648 <= signed32 u < 2147483648.
Proof. unfold signed32. destruct (u <? 2147483648) eqn:E; lia. Qed.

Lemma byte_val_range b : 0 <= byte_val b < 256.
Proof.
  unfold byte_val. pose proof (Byte.to_N_bounded b) as H. lia.
Qed.

Lemma words32_range bs :
  Forall (fun u => 0 <= u < 4294967296) (words32 bs).
Proof.
  assert (H : forall n bs, (length bs <= n)%nat ->
                Forall (fun u => 0 <= u < 4294967296) (words32 bs)).
  { induction n as [| n IH]; intros l Hl.
    - destruct l; [constructor | simpl in Hl; lia].
    - destruct l as [| b0 [| b1 [| b2 [| b3 rest]]]]; try constructor.
      + pose proof (byte_val_range b0). pose proof (byte_val_range b1).
        pose proof (byte_val_range b2). pose proof (byte_val_range b3). lia.
      + apply IH. simpl in Hl. lia. }
  apply (H (length bs)). lia.
Qed.

Section MoreProperties.

Variable pyfloat : Type.
Variable float_of_str : list Z -> option pyfloat.

(** A successful read of the header is the reads of its fields, and the
    other way round. *)
Lemma read_header_reads fc c (h : Header pyfloat) c' :
  read_header float_of_str fc c = (OK h, c') ->
  header_reads float_of_str fc c h /\ c' = c + 1024.
Proof.
  unfold read_header, header_reads. intros H.
  step H. apply read_signature_OK in R. destruct R as [Rsig ->].
  step H. pose proof (decode_binary_cursor _ _ _ _ _ _ _ R) as E.
  step H. unfold py_float in R0. apply lift_OK in R0. destruct R0 as [Rv ->].
  step H. pose proof (proj2 (read_int_OK _ _ _ _ _ R0)) as E1. rename R0 into Rhs.
  step H. pose proof (proj2 (read_int_OK _ _ _ _ _ R0)) as E2. rename R0 into Rsi.
  step H. pose proof (proj2 (read_int_OK _ _ _ _ _ R0)) as E3. rename R0 into Rna.
  step H. pose proof (decode_binary_cursor _ _ _ _ _ _ _ R0) as E4.
  step H. pose proof (decode_binary_cursor _ _ _ _ _ _ _ R1) as E5.
  step H. apply lift_OK in R2. destruct R2 as [Rlast ->].
  step H. pose proof (proj2 (read_int_OK _ _ _ _ _ R2)) as E6. rename R2 into Rcs.
  step H. pose proof (proj2 (read_int_OK _ _ _ _ _ R2)) as E7. rename R2 into Rsb.
  step H. pose proof (proj2 (read_int_OK _ _ _ _ _ R2)) as E8. rename R2 into Rtr.
  step H. pose proof (proj2 (read_int_OK _ _ _ _ _ R2)) as E9. rename R2 into Rsn.
  step H. pose proof (proj2 (read_int_OK _ _ _ _ _ R2)) as E10. rename R2 into Rmm.
  apply ret_OK in H. destruct H as [-> ->].
  cbn [width] in E, E4, E5.
  cbn [signature version header_size sampling_interval num_axes axis_enum
       samples_per_axis num_mlc_leaves clinac_scale num_subbeams
       is_truncated num_snapshots mlc_model].
  cbv zeta.
  pin c0 (c + 32) E. pin c1 (c + 36) E1. pin c2 (c + 40) E2.
  pin c3 (c + 44) E3. pin c4 (c + 44 + 4 * v4) E4.
  pin c5 (c + 44 + 8 * v4) E5. pin c6 (c + 48 + 8 * v4) E6.
  pin c7 (c + 52 + 8 * v4) E7. pin c8 (c + 56 + 8 * v4) E8.
  pin c9 (c + 60 + 8 * v4) E9. pin c10 (c + 1024) E10.
  split; [| reflexivity].
  split; [assumption |]. split.
  { exists v0. split; [assumption |].
    destruct (float_of_str v0); [now injection Rv as -> | discriminate]. }
  split; [assumption |]. split; [assumption |]. split; [assumption |].
  split; [assumption |]. split; [assumption |]. split.
  { rewrite Rlast. f_equal. lia. }
  split; [assumption |]. split; [assumption |]. split; [assumption |].
  split; assumption.
Qed.

Lemma reads_read_header fc c (h : Header pyfloat) :
  header_reads float_of_str fc c h ->
  read_header float_of_str fc c = (OK h, c + 1024).
Proof.
  unfold header_reads. cbv zeta.
  intros (Hsig & (text & Hver & Hfl) & Hhs & Hsi & Hna & Hen & Hsa & Hlast
          & Hcs & Hsb & Htr & Hsn & Hmm).
  destruct h as [sig ver hs si na en sa nl cs sb tr sn mm].
  cbn [signature version header_size sampling_interval num_axes axis_enum
       samples_per_axis num_mlc_leaves clinac_scale num_subbeams
       is_truncated num_snapshots mlc_model] in *.
  unfold read_header.
  assert (Hs : read_signature fc c = (OK sig, c + 16)).
  { unfold read_signature. now rewrite Hsig. }
  rewrite (bind_ok_eq _ _ _ _ _ Hs), (bind_ok_eq _ _ _ _ _ Hver).
  assert (Hf : py_float float_of_str text (c + 32) = (OK ver, c + 32)).
  { unfold py_float, lift. now rewrite Hfl. }
  rewrite (bind_ok_eq _ _ _ _ _ Hf).
  rewrite (bind_ok_eq _ _ _ _ _ Hhs), (bind_ok_eq _ _ _ _ _ Hsi),
    (bind_ok_eq _ _ _ _ _ Hna), (bind_ok_eq _ _ _ _ _ Hen),
    (bind_ok_eq _ _ _ _ _ Hsa).
  assert (Hl : lift (subscript_last sa) (c + 44 + 8 * na)
               = (OK (nl + 2), c + 44 + 8 * na)).
  { unfold lift. now rewrite Hlast. }
  rewrite (bind_ok_eq _ _ _ _ _ Hl).
  rewrite (bind_ok_eq _ _ _ _ _ Hcs), (bind_ok_eq _ _ _ _ _ Hsb),
    (bind_ok_eq _ _ _ _ _ Htr), (bind_ok_eq _ _ _ _ _ Hsn),
    (bind_ok_eq _ _ _ _ _ Hmm).
  unfold ret. do 3 f_equal. lia.
Qed.


Lemma items_unwrap {A : Type} (t : list A) : items (unwrap_single t) = t.
Proof. destruct t as [| x [| y t]]; reflexivity. Qed.

Lemma read_ints_range fc n shift c v c' :
  decode_binary fc Dint n shift c = (OK v, c') -> Forall int32 (items v).
Proof.
  intros H. apply read_ints_OK in H. destruct H as (t & -> & _ & ->).
  rewrite items_unwrap. apply Forall_map.
  eapply Forall_impl; [| apply words32_range].
  intros u Hu. now apply signed32_range.
Qed.

Lemma read_int_range fc shift c i c' :
  read_int fc shift c = (OK i, c') -> int32 i.
Proof.
  intros H. apply read_int_OK in H. destruct H as [H _].
  apply read_ints_range in H. now inversion H.
Qed.

(** The sample counts of a header that was read: a tuple of [num_axes]
    numbers, two at least. *)
Lemma read_header_samples fc c (h : Header pyfloat) c' :
  read_header float_of_str fc c = (OK h, c') ->
  2 <= num_axes h /\
  exists samples,
    samples_per_axis h = Tuple samples /\
    Z.of_nat (length samples) = num_axes h.
Proof.
  intros H. apply read_header_reads in H. destruct H as [H _].
  destruct H as (_ & _ & _ & _ & _ & _ & Hsa & Hlast & _).
  cbv zeta in Hsa.
  apply read_ints_OK in Hsa. destruct Hsa as (ts & Esa & Hls & _).
  rewrite Esa in Hlast |- *.
  destruct ts as [| x [| y ts]]; cbn in Hlast; try discriminate.
  cbn [length] in Hls. split; [lia |].
  exists (x :: y :: ts). split; [reflexivity |]. cbn [length]. lia.
Qed.

(** The header of a decoded log has at least two axes: with one axis the
    read of [samples_per_axis] returns a bare number, which has no last
    element, and with none it returns the empty tuple. The axis
    enumeration and the sample counts are tuples of [num_axes] numbers. *)
Theorem header_has_two_axes fc c (h : Header pyfloat) c' :
  read_header float_of_str fc c = (OK h, c') ->
  2 <= num_axes h /\
  exists enum samples,
    axis_enum h = Tuple enum /\ samples_per_axis h = Tuple samples /\
    Z.of_nat (length enum) = num_axes h /\
    Z.of_nat (length samples) = num_axes h.
Proof.
  intros H.
  destruct (read_header_samples _ _ _ _ H) as (Hn & ts & Ets & Hls).
  apply read_header_reads in H. destruct H as [H _].
  destruct H as (_ & _ & _ & _ & _ & Hen & _).
  cbv zeta in Hen.
  apply read_ints_OK in Hen. destruct Hen as (te & Een & Hle & _).
  split; [assumption |]. exists te, ts.
  assert (Hu : unwrap_single te = Tuple te).
  { destruct te as [| x [| y te]]; cbn [length] in Hle; try lia; reflexivity. }
  rewrite Een, Hu. repeat split; try assumption. lia.
Qed.

(** Every integer field of a decoded header is a signed 32-bit value, and
    so is every entry of the axis enumeration and of the sample counts;
    the leaf count is one of them less 2. *)
Theorem header_fields_int32 fc c (h : Header pyfloat) c' :
  read_header float_of_str fc c = (OK h, c') ->
  int32 (header_size h) /\ int32 (sampling_interval h) /\
  int32 (num_axes h) /\ int32 (clinac_scale h) /\
  int32 (num_subbeams h) /\ int32 (is_truncated h) /\
  int32 (num_snapshots h) /\ int32 (mlc_model h) /\
  Forall int32 (items (axis_enum h)) /\
  Forall int32 (items (samples_per_axis h)) /\
  int32 (num_mlc_leaves h + 2).
Proof.
  intros H. pose proof (read_header_samples _ _ _ _ H) as (_ & ts & Ets & _).
  apply read_header_reads in H. destruct H as [H _].
  destruct H as (_ & _ & Hhs & Hsi & Hna & Hen & Hsa & Hlast
                 & Hcs & Hsb & Htr & Hsn & Hmm).
  cbv zeta in *.
  apply read_int_range in Hhs, Hsi, Hna, Hcs, Hsb, Htr, Hsn, Hmm.
  apply read_ints_range in Hen. pose proof (read_ints_range _ _ _ _ _ _ Hsa) as Hr.
  repeat (split; [assumption |]).
  rewrite Ets in Hlast, Hr. cbn [items] in Hr.
  destruct ts as [| x ts]; [discriminate |].
  assert (Hl : last (x :: ts) 0 = num_mlc_leaves h + 2).
  { change (OK (last (x :: ts) 0) = OK (num_mlc_leaves h + 2)) in Hlast.
    congruence. }
  rewrite <- Hl. rewrite Forall_forall in Hr. apply Hr.
  generalize (x :: ts) (@nil_cons _ x ts). intros l Hne.
  induction l as [| a [| b l] IH]; [congruence | now left |].
  right. apply IH. discriminate.
Qed.


Lemma slice_empty {A : Type} (l : list A) a b :
  0 <= a -> 0 <= b -> b <= a -> slice l a b = [].
Proof.
  intros Ha Hb Hba. apply length_zero_iff_nil. apply Nat2Z.inj.
  rewrite slice_length by lia. lia.
Qed.

(** A header whose sample counts sum to zero makes the run fail with
    ValueError, whatever [num_snapshots]: the read of the snapshot data
    takes no value and the first slice has a step of zero. The cursor
    stays where the sub-beam skip ended. *)
Theorem zero_stride_fails fc c0 (h : Header pyfloat) c1 :
  read_header float_of_str fc 0 = (OK h, c1) ->
  sum (samples_per_axis h) = OK 0 ->
  tlog2csv float_of_str fc c0
  = (Raise ValueError, 1024 + 80 * Z.max 0 (num_subbeams h)).
Proof.
  intros Hh Hsum. unfold tlog2csv, decode.
  assert (c1 = 1024) as ->
      by (apply read_header_reads in Hh; destruct Hh as [_ E]; lia).
  rewrite (bind_ok_eq _ _ _ _ _ Hh).
  rewrite (bind_ok_eq _ _ _ _ _ (skip_subbeams_spec _ _)).
  set (p := 1024 + 80 * Z.max 0 (num_subbeams h)).
  assert (Hsn : read_snapshots fc h p = (OK (0, Tuple []), p)).
  { unfold read_snapshots.
    assert (Hl : lift (sum (samples_per_axis h)) p = (OK 0, p))
      by (unfold lift; now rewrite Hsum).
    rewrite (bind_ok_eq _ _ _ _ _ Hl).
    change (0 * 2 * num_snapshots h) with 0.
    assert (Hr : decode_binary fc Dfloat 0 0 p = (OK (Tuple []), p)).
    { unfold decode_binary. cbv zeta.
      rewrite format_error_small by (pose proof memory_fits; lia).
      rewrite slice_empty by (unfold p; lia).
      cbn. do 2 f_equal. lia. }
    rewrite (bind_ok_eq _ _ _ _ _ Hr). reflexivity. }
  rewrite (bind_ok_eq _ _ _ _ _ Hsn). cbn [fst snd].
  unfold assign_axes. cbv zeta. apply bind_raise_eq.
  reflexivity.
Qed.

(** The bytes of a successful run: it ends at byte
    [1024 + 80 max(0, num_subbeams) + 4 stride num_snapshots]; the
    buffer holds the header fields, [64 + 8 num_axes] bytes at least,
    and, when snapshot values were read, every byte up to the end of
    the run. *)
Theorem run_consumes fc c0 (log : TrajectoryLog pyfloat) c' :
  tlog2csv float_of_str fc c0 = (OK log, c') ->
  let h := header log in
  c' = 1024 + 80 * Z.max 0 (num_subbeams h)
       + 4 * (step_size log * num_snapshots h) /\
  80 <= 64 + 8 * num_axes h <= Z.of_nat (length fc) /\
  (0 < step_size log * num_snapshots h -> c' <= Z.of_nat (length fc)).
Proof.
  intros Hrun. cbv zeta.
  destruct (decode_stages _ _ _ _ _ _ Hrun)
    as (total & data & Hh & _ & _ & _ & Hread & _).
  pose proof (read_header_samples _ _ _ _ Hh) as [Hn _].
  apply read_header_reads in Hh. destruct Hh as [Hh _].
  destruct Hh as (_ & _ & _ & _ & _ & _ & _ & _ & _ & _ & _ & _ & Hmm).
  cbv zeta in Hmm. apply read_int_OK in Hmm. destruct Hmm as [Hmm _].
  pose proof (decode_binary_cursor _ _ _ _ _ _ _ Hread) as E.
  cbn [width] in E.
  split; [lia |]. split.
  - split; [lia |].
    pose proof (read_numbers_inside _ _ _ _ _ _ _ Hmm (or_introl eq_refl)).
    lia.
  - intros Hpos.
    pose proof (read_numbers_inside _ _ _ _ _ _ _ Hread (or_intror eq_refl)).
    lia.
Qed.

(** Bytes after the snapshot data are not looked at: when a run succeeds
    and the number of snapshot values is not negative, the run on the
    same buffer followed by any other bytes gives the same log and ends
    at the same byte. *)
Theorem trailing_bytes_ignored fc c0 (log : TrajectoryLog pyfloat) c' extra :
  tlog2csv float_of_str fc c0 = (OK log, c') ->
  0 <= step_size log * num_snapshots (header log) ->
  tlog2csv float_of_str (fc ++ extra) c0 = (OK log, c').
Proof.
  intros Hrun Hcount.
  destruct (decode_stages _ _ _ _ _ _ Hrun)
    as (total & data & Hh & Hsum & Hstep & Hdata & Hread & _ & Hax).
  pose proof (read_header_samples _ _ _ _ Hh) as [Hn _].
  pose proof (proj1 (read_header_reads _ _ _ _ Hh)) as Hreads.
  set (h := header log) in *.
  assert (Hreads' : header_reads float_of_str (fc ++ extra) 0 h).
  { destruct Hreads as (Hsig & (text & Hver & Hfl) & Hhs & Hsi & Hna & Hen
                        & Hsa & Hlast & Hcs & Hsb & Htr & Hsn & Hmm).
    cbv zeta in *.
    assert (Hlen : 36 <= Z.of_nat (length fc)).
    { apply read_int_OK in Hhs. destruct Hhs as [Hhs _].
      pose proof (read_numbers_inside _ _ _ _ _ _ _ Hhs (or_introl eq_refl)).
      lia. }
    unfold header_reads. cbv zeta.
    split; [apply decode_binary_app; auto; lia |].
    split; [exists text; split; [apply decode_binary_app; auto; lia | auto] |].
    repeat (split; [first [ apply read_int_app; [assumption | lia]
                          | apply decode_binary_app;
                            [assumption | lia | lia | discriminate]
                          | assumption ] |]).
    apply read_int_app; [assumption | lia]. }
  unfold tlog2csv, decode.
  rewrite (bind_ok_eq _ _ _ _ _ (reads_read_header _ _ _ Hreads')).
  rewrite (bind_ok_eq _ _ _ _ _ (skip_subbeams_spec _ _)).
  change (0 + 1024) with 1024.
  set (p := 1024 + 80 * Z.max 0 (num_subbeams h)) in *.
  assert (Hsn : read_snapshots (fc ++ extra) h p
                = (OK (step_size log, Tuple data), c')).
  { unfold read_snapshots.
    assert (Hl : lift (sum (samples_per_axis h)) p = (OK total, p))
      by (unfold lift; now rewrite Hsum).
    rewrite (bind_ok_eq _ _ _ _ _ Hl). rewrite <- Hstep.
    assert (Hr : decode_binary (fc ++ extra) Dfloat
                   (step_size log * num_snapshots h) 0 p
                 = (OK (Tuple data), c')).
    { apply decode_binary_app;
        [assumption | unfold p; lia | assumption | discriminate]. }
    rewrite (bind_ok_eq _ _ _ _ _ Hr). reflexivity. }
  rewrite (bind_ok_eq _ _ _ _ _ Hsn). cbn [fst snd]. exact Hax.
Qed.



(** A version text that [float] refuses makes the run fail with
    ValueError, the cursor standing after the version field, at byte 32. *)
Theorem version_not_a_number_fails fc c0 sig text :
  decode_binary fc Dstr 16 0 0 = (OK sig, 16) ->
  decode_binary fc Dstr 16 0 16 = (OK text, 32) ->
  float_of_str text = None ->
  tlog2csv float_of_str fc c0 = (Raise ValueError, 32).
Proof.
  intros Hsig Hver Hf. unfold tlog2csv, decode. apply bind_raise_eq.
  unfold read_header.
  assert (Hs : read_signature fc 0 = (OK sig, 16)).
  { unfold read_signature. now rewrite Hsig. }
  rewrite (bind_ok_eq _ _ _ _ _ Hs), (bind_ok_eq _ _ _ _ _ Hver).
  apply bind_raise_eq. unfold py_float, lift. now rewrite Hf.
Qed.

End MoreProperties.

(** ** Slices at any column, and the order of the leaves *)

(** [t[col::step]] on [rows] rows of width [step], for any column: the
    rows before row [col / step] give no value. *)
Lemma slice_step_rows {A : Type} (t : list A) col step rows :
  Z.of_nat (length t) = step * rows ->
  0 < step -> 0 <= col -> 0 <= rows ->
  exists s, slice_step t col step = Some s /\
            Z.of_nat (length s) = Z.max 0 (rows - col / step) /\
            forall k, 0 <= k < Z.of_nat (length s) ->
                      item s k = item t (col + k * step).
Proof.
  intros Hlen Hstep Hcol Hrows. unfold slice_step.
  destruct (step =? 0) eqn:E0; [lia |].
  set (len := Z.of_nat (length t)) in *.
  pose proof (Z.div_mod col step ltac:(lia)) as Hdm.
  pose proof (Z.mod_pos_bound col step Hstep) as Hmod.
  set (q := col / step) in *. set (r := col mod step) in *.
  assert (Hq : 0 <= q) by (apply Z.div_pos; lia).
  assert (Hfirst : slice_first len col step = Z.min col len).
  { unfold slice_first, adjust_index.
    destruct (0 <? step) eqn:E1; [| lia]. destruct (col <? 0) eqn:E2; lia. }
  assert (Hcount : slice_count len (slice_first len col step) step
                   = Z.max 0 (rows - q)).
  { rewrite Hfirst. unfold slice_count.
    destruct (0 <? step) eqn:E1; [| lia].
    destruct (Z.lt_ge_cases col len) as [Hin | Hout].
    - replace (Z.min col len) with col by lia.
      destruct (col <? len) eqn:E2; [| lia].
      assert (q < rows) by nia.
      assert ((len - col - 1) / step = rows - q - 1); [| lia].
      symmetry. apply Z.div_unique with (r := step - r - 1); nia.
    - replace (Z.min col len) with len by lia.
      rewrite Z.ltb_irrefl. assert (rows <= q) by nia. lia. }
  rewrite Hcount.
  assert (Hf : 0 < rows - q -> slice_first len col step = col).
  { intros Hr. rewrite Hfirst. nia. }
  set (idxs := map (fun k => slice_first len col step + k * step)
                   (range (Z.max 0 (rows - q)))).
  assert (Hall : Forall (fun i => 0 <= i < Z.of_nat (length t)) idxs).
  { apply Forall_forall. intros i Hi. unfold idxs in Hi.
    apply in_map_iff in Hi. destruct Hi as (k & <- & Hk).
    apply range_In in Hk. rewrite Hf by lia. fold len. nia. }
  eexists. split; [reflexivity |].
  assert (Hl : Z.of_nat (length (gather t idxs)) = Z.max 0 (rows - q)).
  { rewrite gather_length by assumption. unfold idxs.
    rewrite length_map, range_length. lia. }
  split; [assumption |].
  intros k Hk. rewrite Hl in Hk. apply gather_item; [assumption |].
  unfold idxs. rewrite item_map, range_item by lia. cbn [option_map].
  rewrite Hf by lia. reflexivity.
Qed.

Lemma axis_of_rows data step rows col ax :
  axis_of data step col = Some ax ->
  Z.of_nat (length data) = step * rows ->
  0 < step -> 0 <= col -> 0 <= rows ->
  (Z.of_nat (length (expected ax)) = Z.max 0 (rows - col / step) /\
   forall k, 0 <= k < Z.of_nat (length (expected ax)) ->
             item (expected ax) k = item data (col + k * step)) /\
  (Z.of_nat (length (actual ax)) = Z.max 0 (rows - (col + 1) / step) /\
   forall k, 0 <= k < Z.of_nat (length (actual ax)) ->
             item (actual ax) k = item data (col + 1 + k * step)).
Proof.
  unfold axis_of. intros Hax Hlen Hstep Hcol Hrows.
  destruct (slice_step_rows data col step rows Hlen) as (e & He & Hel & Hei);
    [lia | lia | lia |].
  destruct (slice_step_rows data (col + 1) step rows Hlen)
    as (a & Ha & Hal & Hai); [lia | lia | lia |].
  rewrite He, Ha in Hax. injection Hax as <-. cbn [expected actual].
  split; split; assumption.
Qed.

Lemma dict_set_fresh {V : Type} (d : dict V) k v :
  dict_get d k = None -> dict_set d k v = d ++ [(k, v)].
Proof.
  induction d as [| [k0 v0] d IH]; cbn [dict_get dict_set app];
    [reflexivity |].
  destruct (k0 =? k); [discriminate |]. intros H. now rewrite IH.
Qed.

(** The leaf loop over distinct leaves that are not yet keys appends
    them as keys, in the order of the loop. *)
Lemma assign_mlc_keys data step leaves :
  forall d c d' c',
    assign_mlc (Tuple data) step leaves d c = (OK d', c') ->
    NoDup leaves ->
    (forall k, In k leaves -> dict_get d k = None) ->
    map fst d' = map fst d ++ leaves.
Proof.
  induction leaves as [| leaf rest IH]; intros d c d' c' H Hnd Hfresh;
    cbn [assign_mlc] in H.
  - apply ret_OK in H. destruct H as [-> _]. now rewrite app_nil_r.
  - step H. inversion Hnd as [| ? ? Hnotin Hnd']; subst.
    apply IH in H; [| assumption |].
    + rewrite H, dict_set_fresh by (apply Hfresh; now left).
      rewrite map_app. cbn [map fst]. now rewrite <- app_assoc.
    + intros k Hk. rewrite dict_get_set.
      destruct (Z.eqb_spec leaf k) as [-> | _]; [contradiction |].
      apply Hfresh. now right.
Qed.

Lemma range_NoDup n : NoDup (range n).
Proof.
  unfold range. generalize (seq_NoDup (Z.to_nat n) 0).
  induction 1 as [| x l Hx _ IH]; cbn [map]; constructor; [| assumption].
  intros Hin. apply in_map_iff in Hin. destruct Hin as (y & Hy & Hin).
  apply Nat2Z.inj in Hy. now subst y.
Qed.

Section Layout.

Variable pyfloat : Type.
Variable float_of_str : list Z -> option pyfloat.

Lemma assign_axes_mlc (h : Header pyfloat) step data c log c' :
  assign_axes h step (Tuple data) c = (OK log, c') ->
  exists c1,
    assign_mlc (Tuple data) step (range (num_mlc_leaves h)) [] c1
    = (OK (mlc log), c').
Proof.
  unfold assign_axes. cbv zeta. intros H.
  repeat (step H;
          match goal with
          | R : axis_at _ _ _ _ = _ |- _ => clear R
          end).
  step H. apply ret_OK in H. destruct H as [-> ->].
  cbn [mlc]. eauto.
Qed.

(** In a decoded log whose rows have a positive width and whose
    [num_snapshots] is not negative, the axis read at column [col] has
    [num_snapshots - col / stride] expected values (none if that is
    negative), the value [k] being the entry [col + k * stride] of the
    snapshot data; its actual values are those of column [col + 1] in
    the same way. This holds for the fixed axes and for the leaf
    entries, the leaf [leaf] being read at column [30 + 2 * leaf]. *)
Theorem axis_values_at_any_column fc c0 (log : TrajectoryLog pyfloat) c' :
  tlog2csv float_of_str fc c0 = (OK log, c') ->
  0 < step_size log -> 0 <= num_snapshots (header log) ->
  let stride := step_size log in
  let rows := num_snapshots (header log) in
  let samples col ax :=
    (Z.of_nat (length (expected ax)) = Z.max 0 (rows - col / stride) /\
     forall k, 0 <= k < Z.of_nat (length (expected ax)) ->
               item (expected ax) k
               = item (items (snapshot_data log)) (col + k * stride)) /\
    (Z.of_nat (length (actual ax)) = Z.max 0 (rows - (col + 1) / stride) /\
     forall k, 0 <= k < Z.of_nat (length (actual ax)) ->
               item (actual ax) k
               = item (items (snapshot_data log)) (col + 1 + k * stride)) in
  (forall col ax, In (col, ax) (fixed_axes log) -> samples col ax) /\
  (forall leaf ax, dict_get (mlc log) leaf = Some ax ->
                   samples (30 + 2 * leaf) ax).
Proof.
  intros Hrun Hstride Hrows. cbv zeta.
  destruct (decode_stages _ _ _ _ _ _ Hrun)
    as (total & data & _ & _ & _ & Hdata & _ & Hlen & Hax).
  apply assign_axes_OK in Hax.
  destruct Hax as (_ & _ & _ & _ & Hfixed & Hmlc & _).
  rewrite Hdata. cbn [items].
  assert (Hl : Z.of_nat (length data)
               = step_size log * num_snapshots (header log)) by nia.
  split.
  - intros col ax Hin. pose proof (fixed_axes_col _ _ _ _ Hin).
    apply axis_of_rows; auto; lia.
  - intros leaf ax Hget. rewrite Hmlc in Hget.
    destruct ((0 <=? leaf) && (leaf <? num_mlc_leaves (header log))) eqn:Er;
      [| discriminate].
    apply andb_true_iff in Er. destruct Er as [E0 _]. apply Z.leb_le in E0.
    apply axis_of_rows; auto; lia.
Qed.

Lemma mlc_key_list fc c0 (log : TrajectoryLog pyfloat) c' :
  tlog2csv float_of_str fc c0 = (OK log, c') ->
  map fst (mlc log) = range (num_mlc_leaves (header log)).
Proof.
  intros Hrun.
  destruct (decode_stages _ _ _ _ _ _ Hrun)
    as (total & data & _ & _ & _ & _ & _ & _ & Hax).
  apply assign_axes_mlc in Hax. destruct Hax as (c1 & Hmlc).
  apply assign_mlc_keys in Hmlc; [assumption | apply range_NoDup | auto].
Qed.

(** The keys of the leaf entries of a decoded log are
    [0, 1, ..., num_mlc_leaves - 1], each once and in this order, which
    is the order in which the rows of the leaves are written. *)
Theorem leaf_keys_in_order fc c0 (log : TrajectoryLog pyfloat) c' :
  tlog2csv float_of_str fc c0 = (OK log, c') ->
  map fst (mlc log) = range (num_mlc_leaves (header log)) /\
  NoDup (map fst (mlc log)).
Proof.
  intros Hrun. rewrite (mlc_key_list _ _ _ _ Hrun).
  split; [reflexivity | apply range_NoDup].
Qed.

End Layout.

(** ** The rows of the CSV file *)

Lemma write_array_app w description value unit :
  write_array w description value unit
  = w ++ write_array [] description value unit.
Proof.
  unfold write_array, writerow. destruct unit; cbn [app];
    now rewrite <- !app_assoc.
Qed.

Lemma write_array_length description value unit :
  length (write_array [] description value unit) = 4%nat.
Proof. unfold write_array, writerow. now destruct unit. Qed.

Lemma write_leaves_app (mlc : dict Axis) keys :
  forall w,
    fold_left
      (fun w leaf =>
         match dict_get mlc leaf with
         | Some ax =>
             write_array w (Lit.Leaf_ ++ str_int (leaf + 1)) ax (Some Lit.cm)
         | None => w
         end) keys w
    = w ++ flat_map
             (fun leaf =>
                match dict_get mlc leaf with
                | Some ax =>
                    write_array [] (Lit.Leaf_ ++ str_int (leaf + 1)) ax
                      (Some Lit.cm)
                | None => []
                end) keys.
Proof.
  induction keys as [| k keys IH]; intros w; cbn [fold_left flat_map].
  - now rewrite app_nil_r.
  - rewrite IH. destruct (dict_get mlc k).
    + now rewrite write_array_app, <- app_assoc.
    + reflexivity.
Qed.

Lemma segment_at {A : Type} (a b c : list A) :
  firstn (length b) (skipn (length a) (a ++ b ++ c)) = b.
Proof.
  rewrite skipn_app, skipn_all, Nat.sub_diag. cbn [skipn app].
  rewrite firstn_app, firstn_all, Nat.sub_diag. cbn [firstn].
  now rewrite app_nil_r.
Qed.

Lemma range_split n k :
  0 <= k < n ->
  range n = range k ++ k :: map Z.of_nat (seq (S (Z.to_nat k))
                                             (Z.to_nat n - S (Z.to_nat k))).
Proof.
  intros Hk. unfold range.
  replace (Z.to_nat n) with (Z.to_nat k + S (Z.to_nat n - S (Z.to_nat k)))%nat
    at 1 by lia.
  rewrite seq_app, map_app. cbn [seq map Nat.add]. do 2 f_equal. lia.
Qed.

Lemma flat_map_blocks {A B : Type} (f : A -> list B) m l :
  (forall x, In x l -> length (f x) = m) ->
  length (flat_map f l) = (m * length l)%nat.
Proof.
  induction l as [| x l IH]; intros H; cbn [flat_map length]; [lia |].
  rewrite length_app, H, IH by (intuition auto with datatypes). lia.
Qed.

Lemma text_inj s1 s2 : text s1 = text s2 -> s1 = s2.
Proof.
  unfold text. revert s2.
  induction s1 as [| a s1 IH]; intros [| b s2] H; cbn in H;
    try discriminate; [reflexivity |].
  injection H as Hab H. apply N2Z.inj in Hab.
  rewrite <- (Ascii.ascii_N_embedding a), <- (Ascii.ascii_N_embedding b), Hab.
  f_equal. now apply IH.
Qed.

Lemma to_int_nonnil z :
  Z.to_int z <> Decimal.Pos Decimal.Nil /\ Z.to_int z <> Decimal.Neg Decimal.Nil.
Proof.
  destruct z as [| p | p]; cbn; split; try discriminate;
    intros H; injection H as H; now apply DecimalPos.Unsigned.to_uint_nonnil in H.
Qed.

(** [str] is injective on the integers. *)
Lemma str_int_inj j k : str_int j = str_int k -> j = k.
Proof.
  unfold str_int. intros H. apply text_inj in H.
  destruct (to_int_nonnil j) as [Hj1 Hj2]. destruct (to_int_nonnil k) as [Hk1 Hk2].
  pose proof (DecimalString.NilZero.isi _ Hj1 Hj2) as Ij.
  pose proof (DecimalString.NilZero.isi _ Hk1 Hk2) as Ik.
  rewrite H in Ij. rewrite Ij in Ik. injection Ik as Ik.
  rewrite <- (DecimalZ.of_to j), <- (DecimalZ.of_to k). now f_equal.
Qed.

Section Rows.

Variable pyfloat : Type.
Variable float_of_str : list Z -> option pyfloat.
Variable str_of_float : pyfloat -> list Z.

(** The layout of the CSV file of a decoded log. It has
    [53 + 4 * max(0, num_mlc_leaves)] rows: the 13 rows of the header
    fields, then four rows (label, expected values, label, actual
    values) for each of gantry, collimator, couch lat, lng and rtn,
    monitor units, beam hold, control point and the two carriages, in
    this order, and no row for the jaws and the couch vrt axis; then
    four rows per leaf, those of the leaf with key [k] starting at row
    [53 + 4 k] under the label [Leaf k+1]. Different leaves have
    different labels. *)
Theorem csv_layout fc c0 (log : TrajectoryLog pyfloat) c' tlog_file :
  tlog2csv float_of_str fc c0 = (OK log, c') ->
  let rows := write_csv str_of_float tlog_file log in
  let leaf_rows k ax :=
    write_array [] (Lit.Leaf_ ++ str_int (k + 1)) ax (Some Lit.cm) in
  Z.of_nat (length rows) = 53 + 4 * Z.max 0 (num_mlc_leaves (header log)) /\
  firstn 53 rows
  = write_header str_of_float [] tlog_file (header log)
    ++ write_array [] Lit.Gantry (gantry log) (Some Lit.degrees)
    ++ write_array [] Lit.Collimator (collimator log) (Some Lit.degrees)
    ++ write_array [] Lit.Couch_Lat (couch_lat log) (Some Lit.cm)
    ++ write_array [] Lit.Couch_Lng (couch_lng log) (Some Lit.cm)
    ++ write_array [] Lit.Couch_Rtn (couch_rtn log) (Some Lit.degrees)
    ++ write_array [] Lit.MU (mu log) (Some Lit.MU)
    ++ write_array [] Lit.Beam_Hold (beam_hold log) None
    ++ write_array [] Lit.Control_Point (control_point log) None
    ++ write_array [] Lit.Carriage_A (carraigeA log) (Some Lit.cm)
    ++ write_array [] Lit.Carriage_B (carriageB log) (Some Lit.cm) /\
  (forall k ax, dict_get (mlc log) k = Some ax ->
     firstn 4 (skipn (53 + 4 * Z.to_nat k) rows) = leaf_rows k ax) /\
  (forall j k aj ak, leaf_rows j aj = leaf_rows k ak -> j = k).
Proof.
  intros Hrun. cbv zeta.
  pose proof (mlc_key_list _ _ _ _ _ _ Hrun) as Hkeys.
  pose proof (mlc_keys _ _ _ _ _ _ Hrun) as [Hin _].
  destruct (decode_stages _ _ _ _ _ _ Hrun)
    as (total & data & _ & _ & _ & _ & _ & _ & Hax).
  apply assign_axes_OK in Hax. destruct Hax as (_ & _ & _ & _ & _ & Hmlc & _).
  set (n := num_mlc_leaves (header log)) in *.
  set (block := fun leaf =>
                  match dict_get (mlc log) leaf with
                  | Some ax =>
                      write_array [] (Lit.Leaf_ ++ str_int (leaf + 1)) ax
                        (Some Lit.cm)
                  | None => []
                  end).
  set (fixed := write_header str_of_float [] tlog_file (header log)
    ++ write_array [] Lit.Gantry (gantry log) (Some Lit.degrees)
    ++ write_array [] Lit.Collimator (collimator log) (Some Lit.degrees)
    ++ write_array [] Lit.Couch_Lat (couch_lat log) (Some Lit.cm)
    ++ write_array [] Lit.Couch_Lng (couch_lng log) (Some Lit.cm)
    ++ write_array [] Lit.Couch_Rtn (couch_rtn log) (Some Lit.degrees)
    ++ write_array [] Lit.MU (mu log) (Some Lit.MU)
    ++ write_array [] Lit.Beam_Hold (beam_hold log) None
    ++ write_array [] Lit.Control_Point (control_point log) None
    ++ write_array [] Lit.Carriage_A (carraigeA log) (Some Lit.cm)
    ++ write_array [] Lit.Carriage_B (carriageB log) (Some Lit.cm)).
  assert (Hrows : write_csv str_of_float tlog_file log
                  = fixed ++ flat_map block (range n)).
  { unfold write_csv, write_leaves. cbv zeta.
    rewrite write_leaves_app, Hkeys. fold block. reflexivity. }
  assert (Hfixed : length fixed = 53%nat).
  { unfold fixed. rewrite !length_app, !write_array_length. reflexivity. }
  assert (Hblock : forall k, 0 <= k < n -> length (block k) = 4%nat).
  { intros k Hk. unfold block. rewrite Hmlc.
    replace ((0 <=? k) && (k <? n)) with true
      by (symmetry; apply andb_true_iff; split;
          [apply Z.leb_le | apply Z.ltb_lt]; lia).
    destruct (axis_of data (step_size log) (30 + 2 * k)) eqn:E.
    - apply write_array_length.
    - exfalso. specialize (Hmlc k).
      replace ((0 <=? k) && (k <? n)) with true in Hmlc
        by (symmetry; apply andb_true_iff; split;
            [apply Z.leb_le | apply Z.ltb_lt]; lia).
      rewrite E in Hmlc.
      assert (Hk' : In k (map fst (mlc log)))
        by (rewrite Hkeys; now apply range_In).
      apply in_map_iff in Hk'. destruct Hk' as ([k' ax] & Hfst & Hpair).
      cbn in Hfst. subst k'. clear - Hpair Hmlc.
      induction (mlc log) as [| [k0 v0] d IH]; [contradiction |].
      cbn [dict_get] in Hmlc. destruct (Z.eqb_spec k0 k); [discriminate |].
      destruct Hpair as [Hp | Hp]; [congruence | auto]. }
  rewrite Hrows. split; [| split; [| split]].
  - rewrite length_app, Hfixed.
    rewrite (flat_map_blocks block 4).
    + rewrite range_length. lia.
    + intros k Hk. apply Hblock. now apply range_In.
  - rewrite <- Hfixed, firstn_app, firstn_all, Nat.sub_diag. cbn [firstn].
    now rewrite app_nil_r.
  - intros k ax Hget.
    assert (Hk : 0 <= k < n) by (apply Hin; congruence).
    rewrite (range_split n k Hk), flat_map_app. cbn [flat_map].
    assert (Hbk : block k
                  = write_array [] (Lit.Leaf_ ++ str_int (k + 1)) ax
                      (Some Lit.cm)) by (unfold block; now rewrite Hget).
    rewrite app_assoc.
    assert (Hpre : length (fixed ++ flat_map block (range k))
                   = (53 + 4 * Z.to_nat k)%nat).
    { rewrite length_app, Hfixed, (flat_map_blocks block 4).
      - now rewrite range_length.
      - intros x Hx. apply range_In in Hx. apply Hblock. lia. }
    rewrite <- Hpre, <- Hbk.
    replace 4%nat with (length (block k)) by (apply Hblock; lia).
    apply segment_at.
  - intros j k aj ak H. unfold write_array, writerow in H. cbn [app] in H.
    injection H as H _ _. apply app_inv_tail in H.
    apply str_int_inj in H. lia.
Qed.

End Rows.

(** ** The name of the CSV file *)

Lemma replace_from_skip old new s :
  forall k, replace_from old new k s = replace_from old new 0 (skipn k s).
Proof.
  induction s as [| ch rest IH]; intros k.
  - now rewrite skipn_nil.
  - destruct k as [| k]; [reflexivity |]. cbn [replace_from skipn]. apply IH.
Qed.

(** The two cases of the scan for ['bin']. *)
Lemma csv_filename_bin rest :
  csv_filename (98 :: 105 :: 110 :: rest) = 99 :: 115 :: 118 :: csv_filename rest.
Proof.
  unfold csv_filename, replace. cbn [replace_from].
  change (starts_with Lit.bin (98 :: 105 :: 110 :: rest)) with true.
  cbv iota. change (length Lit.bin - 1)%nat with 2%nat.
  rewrite replace_from_skip. reflexivity.
Qed.

Lemma csv_filename_other ch rest :
  starts_with Lit.bin (ch :: rest) = false ->
  csv_filename (ch :: rest) = ch :: csv_filename rest.
Proof.
  intros H. unfold csv_filename, replace. cbn [replace_from]. now rewrite H.
Qed.

Lemma starts_with_bin s :
  starts_with Lit.bin s = true ->
  exists rest, s = 98 :: 105 :: 110 :: rest.
Proof.
  change Lit.bin with [98; 105; 110].
  destruct s as [| a [| b [| c rest]]]; cbn [starts_with];
    rewrite ?andb_false_r; try discriminate.
  intros H. apply andb_true_iff in H. destruct H as [Ha H].
  apply andb_true_iff in H. destruct H as [Hb H].
  apply andb_true_iff in H. destruct H as [Hc _].
  apply Z.eqb_eq in Ha, Hb, Hc. subst. now exists rest.
Qed.

(** A name is scanned by one of the two cases. *)
Lemma csv_filename_cases s :
  s = [] \/
  (exists rest, s = 98 :: 105 :: 110 :: rest /\
                csv_filename s = 99 :: 115 :: 118 :: csv_filename rest) \/
  (exists ch rest, s = ch :: rest /\ starts_with Lit.bin s = false /\
                   csv_filename s = ch :: csv_filename rest).
Proof.
  destruct s as [| ch rest]; [now left | right].
  destruct (Bool.bool_dec (starts_with Lit.bin (ch :: rest)) true) as [E | E].
  - left. apply starts_with_bin in E. destruct E as (r & E).
    exists r. split; [assumption |]. rewrite E. apply csv_filename_bin.
  - apply not_true_is_false in E.
    right. exists ch, rest. split; [reflexivity |]. split; [exact E |].
    apply csv_filename_other. exact E.
Qed.

Lemma list_length_ind {A : Type} (P : list A -> Prop) :
  (forall l, (forall l', (length l' < length l)%nat -> P l') -> P l) ->
  forall l, P l.
Proof.
  intros H l. assert (G : forall n l, (length l < n)%nat -> P l).
  { induction n as [| n IH]; intros l0 Hl; [lia |].
    apply H. intros l' Hl'. apply IH. lia. }
  apply (G (S (length l))). lia.
Qed.

Lemma csv_filename_head s x t :
  csv_filename s = x :: t ->
  x = 99 \/ exists rest, s = x :: rest /\ t = csv_filename rest.
Proof.
  destruct (csv_filename_cases s) as [-> | [(r & -> & E) | (ch & r & -> & _ & E)]];
    rewrite ?E; intros H.
  - discriminate.
  - left. congruence.
  - right. injection H as -> <-. eauto.
Qed.

Lemma csv_filename_not_bin s : starts_with Lit.bin (csv_filename s) = false.
Proof.
  destruct (starts_with Lit.bin (csv_filename s)) eqn:E; [exfalso | reflexivity].
  apply starts_with_bin in E. destruct E as (t & E).
  destruct (csv_filename_cases s) as [-> | [(r & -> & E1) | (ch & r & -> & Hno & E1)]];
    rewrite ?E1 in E; try discriminate.
  injection E as -> E.
  destruct (csv_filename_head _ _ _ E) as [? | (r1 & -> & E2)]; [discriminate |].
  symmetry in E2.
  destruct (csv_filename_head _ _ _ E2) as [? | (r2 & -> & _)]; [discriminate |].
  discriminate Hno.
Qed.

(** Every ['bin'] of the name of the log file is replaced, wherever it
    stands: the name of the CSV file has the same length and holds no
    ['bin']. *)
Theorem csv_filename_replaces_every_bin tlog_file :
  length (csv_filename tlog_file) = length tlog_file /\
  contains Lit.bin (csv_filename tlog_file) = false.
Proof.
  induction tlog_file as [s IH] using list_length_ind.
  destruct (csv_filename_cases s) as [-> | [(r & -> & E) | (ch & r & -> & Hno & E)]].
  - split; reflexivity.
  - destruct (IH r) as [Hl Hc]; [cbn [length]; lia |].
    rewrite E. split; [cbn [length]; now rewrite Hl |].
    change Lit.bin with [98; 105; 110] in *.
    cbn [contains starts_with]. cbn. exact Hc.
  - destruct (IH r) as [Hl Hc]; [cbn [length]; lia |].
    pose proof (csv_filename_not_bin (ch :: r)) as Hnb.
    rewrite E in Hnb |- *. split; [cbn [length]; now rewrite Hl |].
    cbn [contains]. now rewrite Hnb, Hc.
Qed.

(** A name that holds no ['bin'] is left as it is: the CSV file is then
    written under the name of the log file itself. *)
Theorem csv_filename_without_bin tlog_file :
  contains Lit.bin tlog_file = false -> csv_filename tlog_file = tlog_file.
Proof.
  induction tlog_file as [| ch rest IH]; intros H; [reflexivity |].
  cbn [contains] in H. apply orb_false_iff in H. destruct H as [Hs Hc].
  rewrite csv_filename_other by assumption. now rewrite IH.
Qed.

Lemma starts_with_bin_before_dot s t :
  starts_with Lit.bin (s ++ 46 :: t) = true -> starts_with Lit.bin s = true.
Proof.
  change Lit.bin with [98; 105; 110].
  destruct s as [| a [| b [| c s]]]; cbn [app starts_with];
    try (intros H; exact H);
    try (destruct (98 =? a); discriminate);
    try (destruct (98 =? a), (105 =? b); discriminate).
Qed.

(** The name of a log file [stem.bin] whose stem holds no ['bin'] gives
    [stem.csv]. *)
Theorem csv_filename_of_bin_extension stem :
  contains Lit.bin stem = false ->
  csv_filename (stem ++ [46] ++ Lit.bin) = stem ++ [46] ++ Lit.csv.
Proof.
  induction stem as [| ch rest IH]; intros H; [reflexivity |].
  cbn [contains] in H. apply orb_false_iff in H. destruct H as [Hs Hc].
  cbn [app]. rewrite csv_filename_other.
  - f_equal. now apply IH.
  - destruct (starts_with Lit.bin (ch :: rest ++ 46 :: Lit.bin)) eqn:E;
      [| reflexivity].
    apply (starts_with_bin_before_dot (ch :: rest)) in E. congruence.
Qed.

(** ** Reading back what was laid out in the buffer *)

Lemma byte_val_of z : byte_val (Sample.byte_of z) = z mod 256.
Proof.
  unfold byte_val, Sample.byte_of.
  pose proof (Z.mod_pos_bound z 256 ltac:(lia)) as Hz.
  destruct (Byte.of_N (Z.to_N (z mod 256))) as [b |] eqn:E.
  - apply Byte.to_of_N in E. rewrite E. lia.
  - apply Byte.of_N_None_iff in E. lia.
Qed.



Lemma slice_middle {A : Type} (pre mid post : list A) :
  slice (pre ++ mid ++ post) (Z.of_nat (length pre))
        (Z.of_nat (length pre) + Z.of_nat (length mid)) = mid.
Proof.
  unfold slice, adjust_index.
  set (a := Z.of_nat (length pre)). set (m := Z.of_nat (length mid)).
  set (len := Z.of_nat (length (pre ++ mid ++ post))).
  assert (Hlen : len = a + m + Z.of_nat (length post))
    by (unfold len, a, m; rewrite !length_app; lia).
  destruct (a <? 0) eqn:E1; [lia |].
  destruct (a + m <? 0) eqn:E2; [lia |].
  replace (Z.to_nat (Z.min (a + m) len - Z.min a len)) with (length mid) by lia.
  replace (Z.to_nat (Z.min a len)) with (length pre) by lia.
  apply segment_at.
Qed.



Lemma utf8_decode_ascii bs :
  Forall (fun b => byte_val b < 128) bs ->
  utf8_decode bs = Some (map byte_val bs).
Proof.
  induction 1 as [| b bs Hb _ IH]; [reflexivity |].
  cbn [utf8_decode map]. apply Z.ltb_lt in Hb. rewrite Hb, IH. reflexivity.
Qed.

Lemma lstrip_nul_zeros n s : lstrip_nul (repeat 0 n ++ s) = lstrip_nul s.
Proof. induction n as [| n IH]; [reflexivity | exact IH]. Qed.

Lemma lstrip_nul_keeps s : hd 1 s <> 0 -> lstrip_nul s = s.
Proof.
  destruct s as [| ch rest]; [reflexivity |]. cbn [hd lstrip_nul].
  intros H. now destruct (Z.eqb_spec ch 0).
Qed.

Lemma strip_nul_padding p s k :
  Forall (fun ch => ch <> 0) s ->
  strip_nul (repeat 0 p ++ s ++ repeat 0 k) = s.
Proof.
  intros Hs. unfold strip_nul. rewrite lstrip_nul_zeros.
  destruct s as [| a s'] eqn:Es.
  - cbn [app]. rewrite <- (app_nil_r (repeat 0 k)), lstrip_nul_zeros.
    reflexivity.
  - rewrite <- Es in *. rewrite (lstrip_nul_keeps (s ++ _)).
    + rewrite rev_app_distr, rev_repeat, lstrip_nul_zeros.
      rewrite lstrip_nul_keeps; [apply rev_involutive |].
      assert (Hin : In (hd 1 (rev s)) s).
      { apply in_rev. destruct (rev s) eqn:Er.
        - apply (f_equal (@length Z)) in Er. rewrite length_rev, Es in Er.
          discriminate.
        - now left. }
      rewrite Forall_forall in Hs. now apply Hs.
    + rewrite Es in Hs |- *. cbn [app hd]. now inversion Hs.
Qed.

(** A text field holding ASCII characters other than NUL, padded with
    NUL bytes before and after, is read back as the text alone, anywhere
    in a buffer. *)
Theorem text_field_round_trip pre p s k post shift :
  Forall (fun ch => 1 <= ch <= 127) s ->
  decode_binary
    (pre ++ (Sample.zeros p ++ map Sample.byte_of s ++ Sample.zeros k) ++ post)
    Dstr (Z.of_nat (p + length s + k)) shift (Z.of_nat (length pre))
  = (OK s, Z.of_nat (length pre) + Z.of_nat (p + length s + k) + shift).
Proof.
  intros Hs. unfold decode_binary.
  set (field := Sample.zeros p ++ map Sample.byte_of s ++ Sample.zeros k).
  replace (Z.of_nat (p + length s + k)) with (Z.of_nat (length field))
    by (unfold field, Sample.zeros;
        rewrite !length_app, !repeat_length, length_map; lia).
  rewrite slice_middle.
  assert (Hvals : map byte_val field = repeat 0 p ++ s ++ repeat 0 k).
  { unfold field, Sample.zeros. rewrite !map_app, !map_repeat, map_map.
    change (byte_val x00) with 0. do 2 f_equal.
    induction Hs as [| ch s Hch _ IH]; [reflexivity |].
    cbn [map]. rewrite byte_val_of, IH, Z.mod_small by lia. reflexivity. }
  rewrite utf8_decode_ascii.
  - rewrite Hvals, strip_nul_padding; [reflexivity |].
    eapply Forall_impl; [| exact Hs]. cbv beta. lia.
  - apply Forall_map with (f := byte_val) (P := fun z => z < 128).
    rewrite Hvals. rewrite !Forall_app. repeat split.
    + apply Forall_forall. intros x Hx. apply repeat_spec in Hx. lia.
    + eapply Forall_impl; [| exact Hs]. cbv beta. lia.
    + apply Forall_forall. intros x Hx. apply repeat_spec in Hx. lia.
Qed.

(** The sub-beam loop never moves the cursor back: it adds 80 bytes per
    sub-beam, and nothing when the count is zero or negative. *)
Theorem subbeam_skip_any_count n c :
  skip_subbeams n c = (OK tt, c + 80 * Z.max 0 n) /\
  (n <= 0 -> skip_subbeams n c = (OK tt, c)).
Proof.
  rewrite skip_subbeams_spec. split; [reflexivity |].
  intros Hn. do 2 f_equal. lia.
Qed.

End Decoder.

(** ** The properties on the sample inputs *)

Module Examples.

Import Sample.

(** Runs a decoder on a sample input and names the resulting log. *)
Ltac run_sample E log c :=
  match goal with
  | |- exists _ _, ?r = _ /\ _ =>
      destruct r as [[log | ?] c] eqn:E; [| vm_compute in E; discriminate];
      exists log, c; split; [reflexivity |]
  end.

(** Replaces the named log by its value. *)
Ltac evaluate E := vm_compute in E; injection E as <- <-.

(** On the standard layout every column lies inside a row, and the
    log is partitioned as the specification says. *)
Lemma C1_witness :
  exists log c,
    tlog2csv float_of_str standard 0 = (OK log, c) /\ partitioned log.
Proof.
  run_sample E log c.
  assert (F : num_snapshots (header log) = 2 /\ step_size log = 34
              /\ num_mlc_leaves (header log) = 2).
  { evaluate E. repeat split. }
  destruct F as (Frows & Fstride & Fleaves).
  destruct (C1_snapshot_partition _ _ _ _ _ _ E ltac:(lia))
    as (total & data & _ & _ & _ & Hdata & Hlen & Hfixed & Hleaf).
  exists data. split; [assumption |]. split; [lia |]. split.
  - intros col ax Hin. apply Hfixed; [assumption |].
    apply fixed_axes_col in Hin. lia.
  - intros i Hi. apply Hleaf; lia.
Defined.

(** On the round-trip buffer of the specification, rows of 12 values and
    3 snapshots, the couch vertical axis has 2 expected values, the
    first of them the collimator value of row 1: the log is not
    partitioned into the columns 0 to 29 and the leaf columns. *)
Lemma C1_counterexample :
  exists log c,
    tlog2csv float_of_str spec_example 0 = (OK log, c) /\
    (num_snapshots (header log) = 3 /\ step_size log = 12 /\
     length (expected (couch_vrt log)) = 2%nat /\
     item (expected (couch_vrt log)) 0 = item (expected (collimator log)) 1 /\
     ~ partitioned log).
Proof.
  run_sample E log c. evaluate E.
  split; [reflexivity |]. split; [reflexivity |]. split; [reflexivity |].
  split; [reflexivity |].
  intros (data & _ & _ & Hfixed & _).
  match type of Hfixed with
  | forall col ax, In _ (fixed_axes ?l) -> _ =>
      destruct (Hfixed 12 (couch_vrt l)) as [[Hlen _] _]
  end.
  - unfold fixed_axes. cbn [In]. do 6 right. left. reflexivity.
  - vm_compute in Hlen. discriminate.
Qed.

(** On the standard layout every fixed axis and every leaf entry has
    [num_snapshots] expected and actual values. *)
Lemma C2_witness :
  exists log c,
    tlog2csv float_of_str standard 0 = (OK log, c) /\
    ((forall col ax, In (col, ax) (fixed_axes log) ->
        Z.of_nat (length (expected ax)) = num_snapshots (header log) /\
        Z.of_nat (length (actual ax)) = num_snapshots (header log)) /\
     (forall leaf ax, dict_get (mlc log) leaf = Some ax ->
        Z.of_nat (length (expected ax)) = num_snapshots (header log) /\
        Z.of_nat (length (actual ax)) = num_snapshots (header log))).
Proof.
  run_sample E log c.
  assert (F : num_snapshots (header log) = 2 /\ step_size log = 34
              /\ num_mlc_leaves (header log) = 2).
  { evaluate E. repeat split. }
  destruct F as (Frows & Fstride & Fleaves).
  destruct (C2_axis_lengths _ _ _ _ _ _ E ltac:(lia)) as [Hfixed Hleaf].
  destruct (mlc_keys _ _ _ _ _ _ E) as [Hkeys _].
  split.
  - intros col ax Hin. apply (Hfixed col ax Hin).
    apply fixed_axes_col in Hin. lia.
  - intros leaf ax Hget. apply (Hleaf leaf ax Hget).
    assert (0 <= leaf < num_mlc_leaves (header log))
      by (apply Hkeys; congruence).
    lia.
Defined.

(** On the round-trip buffer of the specification, 3 snapshots, the
    control point axis and leaf 0 have one expected and one actual value. *)
Lemma C2_counterexample :
  exists log c,
    tlog2csv float_of_str spec_example 0 = (OK log, c) /\
    (num_snapshots (header log) = 3 /\
     length (expected (control_point log)) = 1%nat /\
     length (actual (control_point log)) = 1%nat /\
     (exists ax, dict_get (mlc log) 0 = Some ax /\
                 length (expected ax) = 1%nat /\ length (actual ax) = 1%nat)).
Proof.
  run_sample E log c. evaluate E.
  split; [reflexivity |]. split; [reflexivity |]. split; [reflexivity |].
  eexists. split; [reflexivity |]. split; reflexivity.
Qed.

(** Runs the header reads on a sample input and names the header. *)
Ltac run_header E h :=
  match goal with
  | |- exists _, ?r = _ /\ _ =>
      let c := fresh "c" in
      destruct r as [[h | ?] c] eqn:E; [| vm_compute in E; discriminate];
      assert (c = 1024) as -> by (vm_compute in E; congruence);
      exists h; split; [reflexivity |]
  end.

(** The end of the header of the standard sample. *)
Lemma C3_witness :
  exists h,
    read_header float_of_str standard 0 = (OK h, 1024) /\
    (decode_binary standard Dint 1 (1024 - (64 + num_axes h * 8))
       (60 + 8 * num_axes h) = (OK (Scalar (mlc_model h)), 1024) /\
     1024 = (60 + 8 * num_axes h) + 4 + (1024 - (64 + num_axes h * 8)) /\
     1024 = 1024).
Proof.
  run_header E h. exact (C3_header_end _ _ _ _ _ E).
Defined.

(** A declared header size of 2048 leaves the end of the header at byte
    1024; with 121 axes the cursor is moved by -8 bytes and the header
    reads succeed. *)
Lemma C3_counterexample :
  (exists h,
     read_header float_of_str hello_2048 0 = (OK h, 1024) /\
     header_size h = 2048) /\
  (exists h,
     read_header float_of_str axes_121 0 = (OK h, 1024) /\
     1024 - (64 + num_axes h * 8) = -8).
Proof.
  split.
  - run_header E h. vm_compute in E. injection E as <-. reflexivity.
  - run_header E h. vm_compute in E. injection E as <-. reflexivity.
Qed.

(** The leaf count and the leaf entries of the standard sample. *)
Lemma C4_witness :
  exists log c,
    tlog2csv float_of_str standard 0 = (OK log, c) /\
    ((exists t, samples_per_axis (header log) = Tuple t /\ t <> [] /\
                num_mlc_leaves (header log) = last t 0 - 2) /\
     (forall leaf, dict_get (mlc log) leaf <> None <->
                   0 <= leaf < num_mlc_leaves (header log)) /\
     (num_mlc_leaves (header log) < 0 -> mlc log = [])).
Proof.
  run_sample E log c. exact (C4_num_mlc_leaves _ _ _ _ _ _ E).
Defined.

(** A last [samples_per_axis] entry of 1 gives [num_mlc_leaves = -1], and
    the run succeeds, with no leaf entry. *)
Lemma C4_counterexample :
  exists log c,
    tlog2csv float_of_str one_carriage_sample 0 = (OK log, c) /\
    (samples_per_axis (header log) = Tuple [14; 1] /\
     num_mlc_leaves (header log) = -1 /\
     mlc log = []).
Proof.
  run_sample E log c. evaluate E. repeat split.
Qed.



(** A buffer whose signature text is HELLO is decoded. *)
Lemma C6_counterexample :
  exists log c,
    tlog2csv float_of_str hello_2048 0 = (OK log, c) /\
    (signature (header log) = HELLO /\ HELLO <> VOSTL).
Proof.
  run_sample E log c. evaluate E. split; [reflexivity | discriminate].
Qed.

(** The read of [header_size] in the standard sample, from byte 32 to 36. *)
Lemma C7_witness :
  36 = 32 + width Dint * 1 + 0 /\
  (forall shift',
     decode_binary standard Dint 1 shift' 32
     = (OK (Scalar 1024), 32 + width Dint * 1 + shift')) /\
  (0 <= 1 -> 0 <= 0 -> 32 <= 36) /\
  (Dint <> Dstr -> 0 <= 1 -> 0 <= 32 <= Z.of_nat (length standard) ->
   0 <= 32 + width Dint * 1 <= Z.of_nat (length standard) /\
   (0 = 0 -> 0 <= 36 <= Z.of_nat (length standard)) /\
   (Z.of_nat (length standard) - (32 + width Dint * 1) < 0 ->
    Z.of_nat (length standard) < 36)).
Proof.
  apply (C7_cursor_motion standard Dint 1 0 32 (Scalar 1024) 36).
  reflexivity.
Defined.

(** With 121 axes [mlc_model] is read at byte 1028 with a shift of -8,
    which leaves the cursor at 1024, before the read; a text read on a
    buffer of five bytes leaves the cursor at 16, past its end; and on a
    header of 80 bytes [mlc_model] is read at byte 76 with a shift of
    944, which leaves the cursor at 1024, past the end, where the run
    ends with a log. *)
Lemma C7_counterexample :
  decode_binary axes_121 Dint 1 (-8) 1028 = (OK (Scalar 2), 1024) /\
  (exists h,
     read_header float_of_str axes_121 0 = (OK h, 1024) /\
     (num_axes h = 121 /\ 1024 - (64 + num_axes h * 8) = -8 /\
      60 + 8 * num_axes h = 1028)) /\
  decode_binary five_bytes Dstr 16 0 0 = (OK VOSTL, 16) /\
  Z.of_nat (length five_bytes) < 16 /\
  decode_binary header_80 Dint 1 944 76 = (OK (Scalar 2), 1024) /\
  Z.of_nat (length header_80) = 80 /\
  (exists log, tlog2csv float_of_str header_80 0 = (OK log, 1024)).
Proof.
  split; [reflexivity |]. split; [| repeat split].
  - run_header E h. vm_compute in E. injection E as <-. repeat split.
  - destruct (tlog2csv float_of_str header_80 0) as [[log | ?] c] eqn:E;
      vm_compute in E; [| discriminate].
    exists log. f_equal. now injection E.
Qed.

(** Five sub-beams: the loop moves the cursor from 1024 to 1424, where
    the snapshot data of the standard sample are read. *)
Lemma C8_witness :
  skip_subbeams 5 1024 = (OK tt, 1424) /\
  exists log c,
    tlog2csv float_of_str standard 0 = (OK log, c) /\
    (num_subbeams (header log) = 5 /\
     decode_binary standard Dfloat
       (step_size log * num_snapshots (header log)) 0 1424
     = (OK (snapshot_data log), c)).
Proof.
  destruct (C8_subbeam_skip _ float_of_str 5 1024)
    as (Hskip & _ & _ & _ & Hrun).
  split; [exact Hskip |].
  run_sample E log c.
  assert (F : num_subbeams (header log) = 5) by (evaluate E; reflexivity).
  split; [assumption |]. exact (proj2 (proj2 (Hrun _ _ _ _ E F))).
Defined.

(** With a declared header size of 2048 and five sub-beams the snapshot
    data are read at byte 1424, which is 1024 + 400 and not 2048 + 400;
    with a sub-beam count of -3 the loop does not run, and the snapshot
    data are read at byte 1024, not at 1024 - 240. *)
Lemma C8_counterexample :
  (exists log c,
     tlog2csv float_of_str standard_2048 0 = (OK log, c) /\
     (header_size (header log) = 2048 /\
      num_subbeams (header log) = 5 /\
      decode_binary standard_2048 Dfloat
        (step_size log * num_snapshots (header log)) 0 1424
      = (OK (snapshot_data log), c) /\
      1424 <> header_size (header log) + 80 * num_subbeams (header log))) /\
  (exists log c,
     tlog2csv float_of_str negative_subbeams 0 = (OK log, c) /\
     (num_subbeams (header log) = -3 /\
      skip_subbeams (num_subbeams (header log)) 1024 = (OK tt, 1024) /\
      decode_binary negative_subbeams Dfloat
        (step_size log * num_snapshots (header log)) 0 1024
      = (OK (snapshot_data log), c) /\
      1024 <> 1024 + 80 * num_subbeams (header log))).
Proof.
  split.
  - run_sample E log c. evaluate E.
    split; [reflexivity |]. split; [reflexivity |].
    split; [reflexivity | discriminate].
  - run_sample E log c. evaluate E.
    split; [reflexivity |]. split; [reflexivity |].
    split; [reflexivity | discriminate].
Qed.

(** A request for [bool] values. *)
Lemma C10_witness :
  decode_binary standard (Dother [98; 111; 111; 108]) 1 0 44
  = (Raise TypeError, 44).
Proof.
  apply C10_invalid_dtype; discriminate.
Defined.

End Examples.

(** ** The further properties on the sample inputs *)

Module MoreExamples.

Import Sample.

(** The header of the standard sample: two axes. *)
Lemma header_has_two_axes_witness :
  exists h,
    read_header float_of_str standard 0 = (OK h, 1024) /\
    (2 <= num_axes h /\
     exists enum samples,
       axis_enum h = Tuple enum /\ samples_per_axis h = Tuple samples /\
       Z.of_nat (length enum) = num_axes h /\
       Z.of_nat (length samples) = num_axes h).
Proof.
  Examples.run_header E h. exact (header_has_two_axes _ _ _ _ _ _ E).
Defined.

(** The header fields of the standard sample are 32-bit values. *)
Lemma header_fields_int32_witness :
  exists h,
    read_header float_of_str standard 0 = (OK h, 1024) /\
    (int32 (header_size h) /\ int32 (num_axes h) /\
     Forall int32 (items (samples_per_axis h))).
Proof.
  Examples.run_header E h.
  destruct (header_fields_int32 _ _ _ _ _ _ E)
    as (H1 & _ & H3 & _ & _ & _ & _ & _ & _ & H10 & _).
  auto.
Defined.

(** Sample counts [1, -1]: the run fails at byte 1024. *)
Lemma zero_stride_fails_witness :
  tlog2csv float_of_str zero_sum 0 = (Raise ValueError, 1024).
Proof.
  destruct (read_header float_of_str zero_sum 0) as [[h | e] c] eqn:E;
    [| vm_compute in E; discriminate].
  assert (F : sum (samples_per_axis h) = OK 0 /\ num_subbeams h = 0).
  { vm_compute in E. injection E as <- _. split; reflexivity. }
  destruct F as [Fsum Fsub].
  rewrite (zero_stride_fails _ _ _ 0 _ _ E Fsum), Fsub. reflexivity.
Defined.

(** The standard sample is read to its last byte, byte 1696. *)
Lemma run_consumes_witness :
  exists log c,
    tlog2csv float_of_str standard 0 = (OK log, c) /\
    (c = 1696 /\ c <= Z.of_nat (length standard)).
Proof.
  Examples.run_sample E log c.
  assert (F : num_snapshots (header log) = 2 /\ step_size log = 34
              /\ num_subbeams (header log) = 5).
  { Examples.evaluate E. repeat split. }
  destruct F as (Frows & Fstride & Fsub).
  destruct (run_consumes _ _ _ _ _ _ E) as (Hc & _ & Hlen).
  rewrite Frows, Fstride, Fsub in Hc. rewrite Frows, Fstride in Hlen.
  split; [lia | apply Hlen; lia].
Defined.

(** The standard sample followed by five more bytes gives the same log. *)
Lemma trailing_bytes_ignored_witness :
  exists log c,
    tlog2csv float_of_str standard 0 = (OK log, c) /\
    tlog2csv float_of_str (standard ++ five_bytes) 0 = (OK log, c).
Proof.
  Examples.run_sample E log c.
  assert (F : num_snapshots (header log) = 2 /\ step_size log = 34).
  { Examples.evaluate E. repeat split. }
  destruct F as (Frows & Fstride).
  apply (trailing_bytes_ignored _ _ _ _ _ _ five_bytes E). lia.
Defined.


(** The version text [two]. *)
Lemma version_not_a_number_fails_witness :
  tlog2csv float_of_str bad_version 0 = (Raise ValueError, 32).
Proof.
  apply (version_not_a_number_fails _ float_of_str bad_version 0 VOSTL
           [116; 119; 111]); reflexivity.
Defined.

(** Rows of 12 values and 3 snapshots: the couch vertical axis, read at
    column 12, has the 2 values of the entries 12 and 24. *)
Lemma axis_values_at_any_column_witness :
  exists log c,
    tlog2csv float_of_str spec_example 0 = (OK log, c) /\
    (Z.of_nat (length (expected (couch_vrt log))) = 2 /\
     item (expected (couch_vrt log)) 1 = item (items (snapshot_data log)) 24).
Proof.
  Examples.run_sample E log c.
  assert (F : num_snapshots (header log) = 3 /\ step_size log = 12).
  { Examples.evaluate E. repeat split. }
  destruct F as (Frows & Fstride).
  destruct (axis_values_at_any_column _ _ _ _ _ _ E) as [Hfixed _];
    [lia | lia |].
  destruct (Hfixed 12 (couch_vrt log)) as [[Hlen Hitem] _].
  { unfold fixed_axes. cbn [In]. do 6 right. left. reflexivity. }
  rewrite Frows, Fstride in Hlen. change (12 / 12) with 1 in Hlen.
  split; [lia |]. rewrite Hitem by lia. now rewrite Fstride.
Defined.

(** The leaf keys of the standard sample are 0 and 1. *)
Lemma leaf_keys_in_order_witness :
  exists log c,
    tlog2csv float_of_str standard 0 = (OK log, c) /\
    (map fst (mlc log) = range (num_mlc_leaves (header log)) /\
     NoDup (map fst (mlc log))).
Proof.
  Examples.run_sample E log c. exact (leaf_keys_in_order _ _ _ _ _ _ E).
Defined.

(** The CSV file of the standard sample has 61 rows. *)
Lemma csv_layout_witness :
  exists log c,
    tlog2csv float_of_str standard 0 = (OK log, c) /\
    Z.of_nat (length (write_csv str_of_decimal log_dat log)) = 61.
Proof.
  Examples.run_sample E log c.
  assert (F : num_mlc_leaves (header log) = 2).
  { Examples.evaluate E. reflexivity. }
  destruct (csv_layout _ float_of_str str_of_decimal _ _ _ _ log_dat E)
    as (Hlen & _).
  rewrite F in Hlen. exact Hlen.
Defined.

(** The name [log.dat] holds no [bin]. *)
Lemma csv_filename_without_bin_witness : csv_filename log_dat = log_dat.
Proof. apply csv_filename_without_bin. reflexivity. Defined.

(** The name [beam1.bin]. *)
Lemma csv_filename_of_bin_extension_witness :
  csv_filename (beam1 ++ [46] ++ Lit.bin) = beam1 ++ [46] ++ Lit.csv.
Proof. apply csv_filename_of_bin_extension. reflexivity. Defined.


(** The signature field of a log. *)
Lemma text_field_round_trip_witness :
  decode_binary ([] ++ (zeros 0 ++ map byte_of VOSTL ++ zeros 11) ++ five_bytes)
    Dstr 16 0 0
  = (OK VOSTL, 16).
Proof.
  apply (text_field_round_trip [] 0 VOSTL 11 five_bytes 0).
  unfold VOSTL. repeat constructor; lia.
Defined.

End MoreExamples.
